(** * DocumentQA: the TF-IDF retrieval index and the answer chain

    A shallow embedding of [documents/services/retriever.py] and
    [documents/services/qa_chain.py].

    - Python objects with mutable attributes become records that are threaded
      through every method; a method returns the object it leaves behind
      together with its outcome, so that what an exception leaves in the
      object stays visible.
    - Floats are exact rationals ([Q]); only their order is used.
    - numpy, scikit-learn and the language model are external: they are
      interfaces ([Numpy], [Sklearn], [LLM]) whose laws are the documented
      behaviour the retriever relies on. *)

From Stdlib Require Import QArith ZArith String List Permutation Sorted Lia.
From stdpp Require Import base list sorting gmap strings pretty.

Local Open Scope string_scope.

(** ** Python outcomes *)

Inductive exn : Type :=
| ValueError (msg : string)
| NotFittedError (msg : string)
| AttributeError (msg : string)
| IndexError (msg : string)
| RuntimeError (msg : string)
| OSError (msg : string).

(** [str(e)] *)
Definition str_exn (e : exn) : string :=
  match e with
  | ValueError m | NotFittedError m | AttributeError m
  | IndexError m | RuntimeError m | OSError m => m
  end.

Inductive result (A : Type) : Type :=
| Ok (a : A)
| Raise (e : exn).
Arguments Ok {A} a.
Arguments Raise {A} e.

(** [x is None] *)
Definition is_None {A} (x : option A) : bool :=
  match x with None => true | Some _ => false end.

(** ** numpy: [argsort], [[::-1]], [[:k]] *)

(** [a[i]] on the array of scores. *)
Definition at_index (a : list Q) (i : nat) : Q := nth i a 0%Q.

(** [np.argsort] with its default [kind]: the positions of the array, in
    ascending order of value.  The default kind is an introsort, which is
    not stable: numpy promises no order among positions of equal value, and
    on longer arrays they do not come out in ascending position.  The
    interface holds what numpy documents and nothing about ties. *)
Class Numpy : Type := {
  argsort : list Q -> list nat;
  argsort_perm : forall a, argsort a ≡ₚ seq 0 (length a);
  argsort_ascending : forall a,
    StronglySorted (fun i j => (at_index a i <= at_index a j)%Q) (argsort a)
}.

(** What the introsort does on a short array (a partition of at most 16
    elements is sorted by insertion): an insertion never moves an element
    past an equal one.  [a] gives the value at a position. *)
Fixpoint insert_by (a : nat -> Q) (i : nat) (l : list nat) : list nat :=
  match l with
  | [] => [i]
  | j :: l' => if Qle_bool (a i) (a j) then i :: j :: l'
               else j :: insert_by a i l'
  end.

Definition insertion_argsort (a : list Q) : list nat :=
  foldr (insert_by (at_index a)) [] (seq 0 (length a)).

(** [l[::-1]] *)
Definition reversed {A} (l : list A) : list A := rev l.

(** [l[:k]] for a Python int [k]: a negative [k] counts from the end. *)
Definition slice_to {A} (k : Z) (l : list A) : list A :=
  if (k <? 0)%Z then take (length l - Z.to_nat (- k)) l
  else take (Z.to_nat k) l.

(** [np.argsort(similarities)[::-1]]: the ranking of all positions. *)
Definition ranking `{NP : Numpy} (similarities : list Q) : list nat :=
  reversed (argsort similarities).

(** ** scikit-learn *)

(** The part of scikit-learn the retriever calls.  [fitted] is what a
    [TfidfVectorizer] holds once fitted (vocabulary and idf weights);
    [fit_transform] raises [ValueError] when no term survives tokenisation
    and stop-word removal; [cosine_similarity q X] is already flattened and
    raises on incompatible shapes.  [fit_scores] is the contract between a
    fit and later queries: one score per fitted document, none negative
    (tf-idf weights are non-negative).  No upper bound is part of it: the
    rows are L2-normalised in floating point, and the cosine of a document
    with itself can come out as 1.0000000000000002. *)
Class Sklearn : Type := {
  fitted : Type;
  csr_matrix : Type;
  fit_transform : list string -> result (fitted * csr_matrix);
  transform : fitted -> string -> csr_matrix;
  cosine_similarity : csr_matrix -> csr_matrix -> result (list Q);
  fit_scores : forall contents v X question,
    fit_transform contents = Ok (v, X) ->
    exists sims,
      cosine_similarity (transform v question) X = Ok sims /\
      length sims = length contents /\
      Forall (fun s => 0 <= s)%Q sims
}.

(** A [TfidfVectorizer] object: constructed, or constructed and fitted. *)
Inductive TfidfVectorizer `{Sklearn} : Type :=
| Unfitted
| Fitted (v : fitted).

(** ** The record store *)

(** A row of [documents.models.Document], as far as the services read it. *)
Record Document : Type := {
  doc_id : Z;
  doc_title : string;
  doc_content : string
}.

(** [Document.objects.all()]: the rows in the order the store yields them. *)
Definition Store : Type := list Document.

(** [Document.objects.filter(id__in=doc_ids)] *)
Definition objects_filter_id_in (db : Store) (doc_ids : list Z) : list Document :=
  List.filter (fun d => bool_decide (doc_id d ∈ doc_ids)) db.

(** ** documents/services/retriever.py *)

Record RetrievalResult : Type := {
  document_id : Z;
  title : string;
  score : Q;
  content_preview : string
}.

(** [content[:200] + '...' if len(content) > 200 else content] *)
Definition preview_of (content : string) : string :=
  if (200 <? String.length content)%nat
  then substring 0 200 content ++ "..."
  else content.

Section Retriever.
Context `{SK : Sklearn} `{NP : Numpy}.

Record DocumentRetriever : Type := {
  _vectorizer : option TfidfVectorizer;
  _tfidf_matrix : option csr_matrix;
  _document_ids : list Z;
  _document_titles : list string;
  _document_previews : list string;
  _is_indexed : bool
}.

(** [DocumentRetriever.__init__] *)
Definition new_retriever : DocumentRetriever :=
  {| _vectorizer := None; _tfidf_matrix := None;
     _document_ids := []; _document_titles := [];
     _document_previews := []; _is_indexed := false |}.

(** [index_documents]: the object is returned next to the outcome, so the
    assignments made before [fit_transform] raises remain in it. *)
Definition index_documents (db : Store) (self : DocumentRetriever)
  : DocumentRetriever * result nat :=
  match db with
  | [] =>
      ({| _vectorizer := None; _tfidf_matrix := None;
          _document_ids := []; _document_titles := [];
          _document_previews := []; _is_indexed := false |}, Ok 0%nat)
  | _ :: _ =>
      let ids := map doc_id db in
      let titles := map doc_title db in
      let previews := map (fun d => preview_of (doc_content d)) db in
      let contents := map doc_content db in
      match fit_transform contents with
      | Raise e =>
          ({| _vectorizer := Some Unfitted;
              _tfidf_matrix := _tfidf_matrix self;
              _document_ids := ids; _document_titles := titles;
              _document_previews := previews;
              _is_indexed := _is_indexed self |}, Raise e)
      | Ok (v, X) =>
          ({| _vectorizer := Some (Fitted v);
              _tfidf_matrix := Some X;
              _document_ids := ids; _document_titles := titles;
              _document_previews := previews;
              _is_indexed := true |}, Ok (length ids))
      end
  end.

(** The loop of [find_relevant] over [top_indices]; indexing a list or an
    array out of range raises [IndexError]. *)
Fixpoint collect (self : DocumentRetriever) (similarities : list Q)
    (min_score : Q) (top_indices : list nat)
    (results : list RetrievalResult) : result (list RetrievalResult) :=
  match top_indices with
  | [] => Ok results
  | idx :: rest =>
      match similarities !! idx with
      | None => Raise (IndexError "index out of bounds")
      | Some sc =>
          if Qle_bool min_score sc then
            match _document_ids self !! idx, _document_titles self !! idx,
                  _document_previews self !! idx with
            | Some i, Some t, Some p =>
                collect self similarities min_score rest
                  (results ++ [{| document_id := i; title := t;
                                  score := sc; content_preview := p |}])
            | _, _, _ => Raise (IndexError "list index out of range")
            end
          else collect self similarities min_score rest results
      end
  end.

Definition find_relevant (db : Store) (question : string) (top_k : Z)
    (min_score : Q) (self : DocumentRetriever)
  : DocumentRetriever * result (list RetrievalResult) :=
  let '(self, indexed) :=
    if negb (_is_indexed self) || is_None (_vectorizer self)
    then index_documents db self else (self, Ok 0%nat) in
  match indexed with
  | Raise e => (self, Raise e)
  | Ok _ =>
      if negb (_is_indexed self) then (self, Ok []) else
      match _tfidf_matrix self with
      | None => (self, Ok [])
      | Some X =>
          match _vectorizer self with
          | None => (self, Raise (AttributeError
                "'NoneType' object has no attribute 'transform'"))
          | Some Unfitted => (self, Raise (NotFittedError
                "The TF-IDF vectorizer is not fitted"))
          | Some (Fitted v) =>
              match cosine_similarity (transform v question) X with
              | Raise e => (self, Raise e)
              | Ok similarities =>
                  let top_indices := slice_to top_k (ranking similarities) in
                  (self, collect self similarities min_score top_indices [])
              end
          end
      end
  end.

(** [{doc.id: doc for doc in documents}]: a later row replaces an earlier
    one with the same key. *)
Definition doc_map_of (documents : list Document) : gmap Z Document :=
  foldl (fun m d => <[doc_id d := d]> m) ∅ documents.

(** Lines 141-152 of [find_relevant_documents]: what is done with the
    results of [find_relevant]. *)
Definition resolve (db : Store) (results : list RetrievalResult)
  : list (Document * Q) :=
  match results with
  | [] => []
  | _ :: _ =>
      let doc_ids := map document_id results in
      let documents := objects_filter_id_in db doc_ids in
      let doc_map := doc_map_of documents in
      omap (fun r => match doc_map !! document_id r with
                     | Some d => Some (d, score r)
                     | None => None
                     end) results
  end.

Definition find_relevant_documents (db : Store) (question : string)
    (top_k : Z) (min_score : Q) (self : DocumentRetriever)
  : DocumentRetriever * result (list (Document * Q)) :=
  match find_relevant db question top_k min_score self with
  | (self, Raise e) => (self, Raise e)
  | (self, Ok results) => (self, Ok (resolve db results))
  end.

Definition is_indexed (self : DocumentRetriever) : bool := _is_indexed self.

Definition document_count (self : DocumentRetriever) : nat :=
  length (_document_ids self).

Definition clear_index (self : DocumentRetriever) : DocumentRetriever :=
  {| _vectorizer := None; _tfidf_matrix := None;
     _document_ids := []; _document_titles := [];
     _document_previews := []; _is_indexed := false |}.

(** [refresh_index], on the singleton retriever. *)
Definition refresh_index (db : Store) (retriever : DocumentRetriever)
  : DocumentRetriever * result nat :=
  index_documents db retriever.

End Retriever.

(** ** documents/services/qa_chain.py *)

(** What [llm.invoke] returns: a plain string, or an object with a
    [content] attribute. *)
Inductive response : Type :=
| StrResponse (s : string)
| MessageResponse (content : string).

(** A language model, as far as it is used: [invoke]. *)
Definition LLM : Type := string -> result response.

(** [FakeListLLM(responses=[...])] with the single canned response. *)
Definition fake_llm : LLM := fun _ =>
  Ok (StrResponse
    ("Based on the provided documents, I can provide the following answer. "
     ++ "The information suggests that the topic relates to the content in the retrieved documents. "
     ++ "Please note this is a simulated response for testing purposes.")).

(** [django.conf.settings] and the environment the service loads its model
    in: the flag; the outcome of importing [FakeListLLM]; the outcome of
    [_init_huggingface_llm] up to its assignment, that is the wrapped
    pipeline, or the exception that an import, a [from_pretrained] or
    [pipeline] raises. *)
Record Settings : Type := {
  USE_FAKE_LLM : bool;
  import_FakeListLLM : result unit;
  huggingface_llm : result LLM
}.

Record QAChainService : Type := {
  _llm : option LLM;
  _chain : option unit;   (* assigned [None] in [__init__], never again *)
  _initialized : bool
}.

Definition new_qa_service : QAChainService :=
  {| _llm := None; _chain := None; _initialized := false |}.

(** The two loaders assign [self._llm] as their last statement: when one
    raises, the object is as it was. *)
Definition _init_fake_llm (settings : Settings) (self : QAChainService)
  : QAChainService * result unit :=
  match import_FakeListLLM settings with
  | Raise e => (self, Raise e)
  | Ok _ =>
      ({| _llm := Some fake_llm; _chain := _chain self;
          _initialized := _initialized self |}, Ok tt)
  end.

Definition _init_huggingface_llm (settings : Settings) (self : QAChainService)
  : QAChainService * result unit :=
  match huggingface_llm settings with
  | Raise e => (self, Raise e)
  | Ok llm =>
      ({| _llm := Some llm; _chain := _chain self;
          _initialized := _initialized self |}, Ok tt)
  end.

(** [_initialize]: the flag is set after the loader has returned, so a
    loader that raises leaves it false. *)
Definition _initialize (settings : Settings) (self : QAChainService)
  : QAChainService * result unit :=
  if _initialized self then (self, Ok tt)
  else
    match (if USE_FAKE_LLM settings then _init_fake_llm settings self
           else _init_huggingface_llm settings self) with
    | (self, Raise e) => (self, Raise e)
    | (self, Ok _) =>
        ({| _llm := _llm self; _chain := _chain self;
            _initialized := true |}, Ok tt)
    end.

Definition nl : string := String (Ascii.ascii_of_nat 10) EmptyString.
Definition dquote : string := String (Ascii.ascii_of_nat 34) EmptyString.

Definition _build_prompt (question context : string) : string :=
  "Answer the question based only on the following context." ++ nl ++
  "If the answer cannot be found in the context, say " ++ dquote ++
  "I cannot find the answer in the provided documents." ++ dquote ++ nl ++
  nl ++
  "Context:" ++ nl ++
  context ++ nl ++
  nl ++
  "Question: " ++ question ++ nl ++
  nl ++
  "Answer:".

(** [sep.join(parts)] *)
Fixpoint join (sep : string) (parts : list string) : string :=
  match parts with
  | [] => EmptyString
  | [p] => p
  | p :: rest => p ++ sep ++ join sep rest
  end.

Definition context_of (documents : list (Document * Q)) : string :=
  let context_parts :=
    map (fun '(doc, _) =>
           "[Document: " ++ doc_title doc ++ "]" ++ nl ++ doc_content doc ++ nl)
        documents in
  let context := join (nl ++ "---" ++ nl) context_parts in
  if (4000 <? String.length context)%nat
  then substring 0 4000 context ++ "...[truncated]"
  else context.

Definition no_documents_answer : string :=
  "No relevant documents found to answer this question.".

(** [generate_answer] returns the service object, the prompts it passed to
    [self._llm.invoke] during the call, and the outcome.  [_initialize] is
    called first and outside the [try]: what it raises leaves the method. *)
Definition generate_answer (settings : Settings) (question : string)
    (documents : list (Document * Q)) (self : QAChainService)
  : QAChainService * list string * result string :=
  match _initialize settings self with
  | (self, Raise e) => (self, [], Raise e)
  | (self, Ok _) =>
      match documents with
      | [] => (self, [], Ok no_documents_answer)
      | _ :: _ =>
          let prompt := _build_prompt question (context_of documents) in
          match _llm self with
          | None =>
              (self, [],
               Ok ("Error generating answer: " ++
                   str_exn (AttributeError
                     "'NoneType' object has no attribute 'invoke'")))
          | Some llm =>
              match llm prompt with
              | Ok (MessageResponse content) => (self, [prompt], Ok content)
              | Ok (StrResponse s) => (self, [prompt], Ok s)
              | Raise e =>
                  (self, [prompt],
                   Ok ("Error generating answer: " ++ str_exn e))
              end
          end
      end
  end.

(** A row of [documents.models.Question]. *)
Record Question : Type := {
  text : string;
  answer : option string;
  answered_at : option Z;
  related_documents : list Z
}.

Section AnswerQuestion.
Context `{SK : Sklearn} `{NP : Numpy}.

(** The objects [answer_question] works on: the two singletons and the
    question row. *)
Record World : Type := {
  retriever : DocumentRetriever;
  qa_service : QAChainService;
  question_row : Question
}.

Definition answer_question (settings : Settings) (db : Store) (now : Z)
    (w : World) : World * result string :=
  let question_obj := question_row w in
  let '(retr, refreshed) :=
    if negb (is_indexed (retriever w)) then refresh_index db (retriever w)
    else (retriever w, Ok 0%nat) in
  match refreshed with
  | Raise e =>
      ({| retriever := retr; qa_service := qa_service w;
          question_row := question_obj |}, Raise e)
  | Ok _ =>
      match find_relevant_documents db (text question_obj) 3 (1#20) retr with
      | (retr, Raise e) =>
          ({| retriever := retr; qa_service := qa_service w;
              question_row := question_obj |}, Raise e)
      | (retr, Ok documents) =>
          match generate_answer settings (text question_obj) documents
                  (qa_service w) with
          | (qa, _, Raise e) =>
              ({| retriever := retr; qa_service := qa;
                  question_row := question_obj |}, Raise e)
          | (qa, _, Ok ans) =>
              ({| retriever := retr; qa_service := qa;
                  question_row :=
                    {| text := text question_obj;
                       answer := Some ans;
                       answered_at := Some now;
                       related_documents :=
                         map (fun '(doc, _) => doc_id doc) documents |} |},
               Ok ans)
          end
      end
  end.

(** [AskQuestionView.post] from the validated question text on. *)
Inductive Response : Type :=
| HTTP_201_CREATED (question_text : string) (answer_text : option string)
    (related : list Z) (answered : option Z)
| HTTP_500_INTERNAL_SERVER_ERROR (error : string).

Definition AskQuestionView_post (settings : Settings) (db : Store) (now : Z)
    (question_text : string) (retr : DocumentRetriever)
    (qa : QAChainService) : World * Response :=
  let question :=
    {| text := question_text; answer := None; answered_at := None;
       related_documents := [] |} in
  match answer_question settings db now
          {| retriever := retr; qa_service := qa; question_row := question |}
  with
  | (w, Raise e) =>
      (w, HTTP_500_INTERNAL_SERVER_ERROR
            ("Failed to generate answer: " ++ str_exn e))
  | (w, Ok _) =>
      let q := question_row w in
      (w, HTTP_201_CREATED (text q) (answer q) (related_documents q)
            (answered_at q))
  end.
End AnswerQuestion.

(** ** documents/views.py: the retrieval sequence *)

Section RetrieveView.
Context `{SK : Sklearn} `{NP : Numpy}.

(** Lines 68-73 of [RetrieveDocumentsView.post]: refresh the singleton when
    it is not indexed, then query it.  An exception of the refresh leaves
    the view before the query. *)
Definition retrieve_with_refresh (db : Store) (question : string) (top_k : Z)
    (min_score : Q) (retriever : DocumentRetriever)
  : DocumentRetriever * result (list RetrievalResult) :=
  let '(retriever, refreshed) :=
    if negb (is_indexed retriever) then refresh_index db retriever
    else (retriever, Ok 0%nat) in
  match refreshed with
  | Raise e => (retriever, Raise e)
  | Ok _ => find_relevant db question top_k min_score retriever
  end.
End RetrieveView.

(** ** documents/models.py *)

(** [s[:k]] on a string, for a Python int [k]. *)
Definition str_slice_to (k : Z) (s : string) : string :=
  if (k <? 0)%Z then substring 0 (String.length s - Z.to_nat (- k)) s
  else substring 0 (Z.to_nat k) s.

(** [Document.__str__] *)
Definition Document_str (d : Document) : string := doc_title d.

(** [Document.content_preview(length)] *)
Definition Document_content_preview (length : Z) (d : Document) : string :=
  if (Z.of_nat (String.length (doc_content d)) <=? length)%Z
  then doc_content d
  else str_slice_to length (doc_content d) ++ "...".

(** [Question.__str__] *)
Definition Question_str (q : Question) : string :=
  str_slice_to 50 (text q) ++
  (if (50 <? String.length (text q))%nat then "..." else EmptyString).

(** [bool(x)] for an optional string: [None] and the empty string are
    false. *)
Definition truthy (x : option string) : bool :=
  match x with
  | None => false
  | Some EmptyString => false
  | Some (String _ _) => true
  end.

(** [Question.has_answer] *)
Definition Question_has_answer (q : Question) : bool := truthy (answer q).

(** [Question.question_preview(length)] *)
Definition Question_question_preview (length : Z) (q : Question) : string :=
  if (Z.of_nat (String.length (text q)) <=? length)%Z
  then text q
  else str_slice_to length (text q) ++ "...".

(** ** documents/storage *)

(** The columns of a [Document] row that the storage backend touches, and
    the title; the table is keyed by the primary key [id]. *)
Record StoredDocument : Type := {
  stored_title : string;
  stored_content : string;
  stored_reference : string
}.

(** [storage/base.py]: the abstract backend over a store [S]; every
    operation returns the store it leaves. *)
Class DocumentStorageBackend (S : Type) : Type := {
  save_content : Z -> string -> S -> S * string;
  get_content : Z -> string -> S -> option string;
  delete_content : Z -> string -> S -> S * bool
}.

(** [DocumentStorageBackend.update_content], the default implementation:
    delete the old content, save the new. *)
Definition default_update_content {S} `{DocumentStorageBackend S}
    (document_id : Z) (reference content : string) (store : S) : S * string :=
  let '(store, _) := delete_content document_id reference store in
  save_content document_id content store.

(** [storage/database.py] *)
Definition REFERENCE : string := "db".

(** [Document.objects.filter(id=document_id).update(...)]: the table it
    leaves and the number of rows it matched. *)
Definition update_by_id (document_id : Z)
    (f : StoredDocument -> StoredDocument) (table : gmap Z StoredDocument)
  : gmap Z StoredDocument * nat :=
  match table !! document_id with
  | Some _ => (alter f document_id table, 1%nat)
  | None => (table, 0%nat)
  end.

Definition db_save_content (document_id : Z) (content : string)
    (table : gmap Z StoredDocument) : gmap Z StoredDocument * string :=
  (fst (update_by_id document_id
          (fun r => {| stored_title := stored_title r;
                       stored_content := content;
                       stored_reference := REFERENCE |}) table),
   REFERENCE).

(** [Document.DoesNotExist] is caught and becomes [None]. *)
Definition db_get_content (document_id : Z) (reference : string)
    (table : gmap Z StoredDocument) : option string :=
  match table !! document_id with
  | Some r => Some (stored_content r)
  | None => None
  end.

Definition db_delete_content (document_id : Z) (reference : string)
    (table : gmap Z StoredDocument) : gmap Z StoredDocument * bool :=
  let '(table, updated) :=
    update_by_id document_id
      (fun r => {| stored_title := stored_title r;
                   stored_content := EmptyString;
                   stored_reference := stored_reference r |}) table in
  (table, (0 <? updated)%nat).

#[export] Instance DatabaseStorageBackend
  : DocumentStorageBackend (gmap Z StoredDocument) :=
  {| save_content := db_save_content;
     get_content := db_get_content;
     delete_content := db_delete_content |}.

(** [DatabaseStorageBackend.update_content], the override. *)
Definition db_update_content (document_id : Z) (reference content : string)
    (table : gmap Z StoredDocument) : gmap Z StoredDocument * string :=
  db_save_content document_id content table.

(** ** documents/admin.py: the actions of [QuestionAdmin] *)

(** [django.contrib.messages] levels, and a message given to
    [message_user]. *)
Inductive level : Type := ERROR | SUCCESS | WARNING.

Definition message : Type := (level * string)%type.

Section AdminActions.
Context `{SK : Sklearn} `{NP : Numpy}.

(** What an action works on and leaves: the two singletons, the rows of the
    queryset it has gone through, its counters and the messages it gave. *)
Record ActionState : Type := {
  act_retriever : DocumentRetriever;
  act_qa : QAChainService;
  act_rows : list Question;
  success_count : nat;
  error_count : nat;
  act_messages : list message
}.

(** The loop of [generate_answers]; [clock n] is [timezone.now()] at the
    [n]-th question. *)
Fixpoint generate_answers_loop (settings : Settings) (db : Store)
    (clock : nat -> Z) (n : nat) (queryset : list Question)
    (st : ActionState) : ActionState :=
  match queryset with
  | [] => st
  | question :: rest =>
      let '(w, outcome) :=
        answer_question settings db (clock n)
          {| retriever := act_retriever st; qa_service := act_qa st;
             question_row := question |} in
      generate_answers_loop settings db clock (S n) rest
        match outcome with
        | Ok _ =>
            {| act_retriever := retriever w; act_qa := qa_service w;
               act_rows := (act_rows st ++ [question_row w])%list;
               success_count := S (success_count st);
               error_count := error_count st;
               act_messages := act_messages st |}
        | Raise e =>
            {| act_retriever := retriever w; act_qa := qa_service w;
               act_rows := (act_rows st ++ [question_row w])%list;
               success_count := success_count st;
               error_count := S (error_count st);
               act_messages :=
                 (act_messages st ++
                  [(ERROR,
                    ("Error generating answer for " ++ dquote ++
                     str_slice_to 30 (text question) ++ "..." ++ dquote ++
                     ": " ++ str_exn e)%string)])%list |}
        end
  end.

(** [QuestionAdmin.generate_answers] *)
Definition generate_answers (settings : Settings) (db : Store)
    (clock : nat -> Z) (queryset : list Question)
    (retr : DocumentRetriever) (qa : QAChainService) : ActionState :=
  let st :=
    generate_answers_loop settings db clock 0 queryset
      {| act_retriever := retr; act_qa := qa; act_rows := [];
         success_count := 0; error_count := 0; act_messages := [] |} in
  let messages1 :=
    if (0 <? success_count st)%nat
    then (act_messages st ++
          [(SUCCESS, ("Successfully generated answers for " ++
                      pretty (success_count st) ++ " question(s).")%string)])%list
    else act_messages st in
  let messages2 :=
    if (0 <? error_count st)%nat
    then (messages1 ++
          [(WARNING, ("Failed to generate answers for " ++
                      pretty (error_count st) ++ " question(s).")%string)])%list
    else messages1 in
  {| act_retriever := act_retriever st; act_qa := act_qa st;
     act_rows := act_rows st; success_count := success_count st;
     error_count := error_count st; act_messages := messages2 |}.

(** The loop of the action [find_relevant_documents]: the retriever it
    leaves, the rows (those gone through, then those not reached when a
    query raises) and the count of updated questions. *)
Fixpoint find_documents_loop (db : Store) (queryset : list Question)
    (retr : DocumentRetriever) (rows : list Question) (updated_count : nat)
  : DocumentRetriever * list Question * result nat :=
  match queryset with
  | [] => (retr, rows, Ok updated_count)
  | question :: rest =>
      match find_relevant_documents db (text question) 3 (1#20) retr with
      | (retr, Raise e) => (retr, (rows ++ question :: rest)%list, Raise e)
      | (retr, Ok []) =>
          find_documents_loop db rest retr (rows ++ [question])%list
            updated_count
      | (retr, Ok ((_ :: _) as results)) =>
          find_documents_loop db rest retr
            (rows ++
             [{| text := text question; answer := answer question;
                 answered_at := answered_at question;
                 related_documents :=
                   map (fun '(doc, _) => doc_id doc) results |}])%list
            (S updated_count)
      end
  end.

(** [QuestionAdmin.find_relevant_documents], the action. *)
Definition admin_find_relevant_documents (db : Store)
    (queryset : list Question) (retr : DocumentRetriever)
  : DocumentRetriever * list Question * result (list message) :=
  let '(retr, refreshed) :=
    if negb (is_indexed retr) then refresh_index db retr
    else (retr, Ok 0%nat) in
  match refreshed with
  | Raise e => (retr, queryset, Raise e)
  | Ok _ =>
      match find_documents_loop db queryset retr [] 0 with
      | (retr, rows, Raise e) => (retr, rows, Raise e)
      | (retr, rows, Ok updated_count) =>
          (retr, rows,
           Ok [(SUCCESS, "Found relevant documents for " ++
                         pretty updated_count ++ " question(s).")])
      end
  end.
End AdminActions.

(** * Vocabulary of the properties *)

(** ** Orders on positions *)

(** Position [i] is listed before [j] by an ascending stable sort. *)
Definition asc_stable (a : nat -> Q) (i j : nat) : Prop :=
  (a i < a j)%Q \/ ((a i == a j)%Q /\ (i < j)%nat).

(** The reversal of that order: what the ranking of the code makes of a
    short array. *)
Definition ranked_before (a : nat -> Q) (i j : nat) : Prop :=
  (a j < a i)%Q \/ ((a i == a j)%Q /\ (j < i)%nat).

(** Position [i] may be listed before [j] in a ranking by descending
    score. *)
Definition score_desc (a : nat -> Q) (i j : nat) : Prop := (a j <= a i)%Q.

(** The order the spec describes: descending by score, equal scores in
    ascending position. *)
Definition descending_ties_ascending (sims : list Q) (l : list nat) : Prop :=
  l ≡ₚ seq 0 (length sims) /\
  StronglySorted (fun i j =>
    (at_index sims j < at_index sims i)%Q \/
    ((at_index sims i == at_index sims j)%Q /\ (i < j)%nat)) l.

(** ** The index and its results *)

Section Vocabulary.
Context `{SK : Sklearn} `{NP : Numpy}.
Implicit Types (self : DocumentRetriever) (sims : list Q).

(** The index is built over a corpus of [n] documents: the vectorizer is
    fitted, the matrix is the one that fit produced, and the three
    parallel arrays have length [n], the size of the corpus of that fit. *)
Definition built_over (n : nat) (self : DocumentRetriever) : Prop :=
  exists contents v X,
    length contents = n /\
    fit_transform contents = Ok (v, X) /\
    _vectorizer self = Some (Fitted v) /\
    _tfidf_matrix self = Some X /\
    length (_document_ids self) = n /\
    length (_document_titles self) = n /\
    length (_document_previews self) = n.

(** The invariant: the flag is set exactly when the index is built. *)
Definition consistent (self : DocumentRetriever) : Prop :=
  _is_indexed self = true <-> exists n, built_over n self.

(** A built index: the [Indexed] state. *)
Definition built (self : DocumentRetriever) : Prop :=
  _is_indexed self = true /\ exists n, built_over n self.

(** The result built for position [idx]. *)
Definition result_at self sims (idx : nat) : RetrievalResult :=
  {| document_id := nth idx (_document_ids self) 0%Z;
     title := nth idx (_document_titles self) EmptyString;
     score := at_index sims idx;
     content_preview := nth idx (_document_previews self) EmptyString |}.

Definition passes sims (min_score : Q) (idx : nat) : bool :=
  Qle_bool min_score (at_index sims idx).

(** The first [top_k] of the ranking, then those of them that reach
    [min_score]. *)
Definition select self sims (top_k : Z) (min_score : Q) : list RetrievalResult :=
  map (result_at self sims)
      (List.filter (passes sims min_score) (slice_to top_k (ranking sims))).

(** The scores of the current index against a question. *)
Definition similarities_of self (question : string) : list Q :=
  match _vectorizer self, _tfidf_matrix self with
  | Some (Fitted v), Some X =>
      match cosine_similarity (transform v question) X with
      | Ok sims => sims
      | Raise _ => []
      end
  | _, _ => []
  end.

End Vocabulary.

(** [min_score] clamped to [0,1], as the spec asks of the core. *)
Definition clamp01 (min_score : Q) : Q :=
  if Qle_bool 0 min_score
  then (if Qle_bool min_score 1 then min_score else 1%Q)
  else 0%Q.

(** The key and score of a result, and of a resolved pair. *)
Definition result_key (r : RetrievalResult) : Z * Q := (document_id r, score r).
Definition pair_key (p : Document * Q) : Z * Q := (doc_id (fst p), snd p).

(** The store can resolve the id of [r]. *)
Definition resolvable (db : Store) (r : RetrievalResult) : bool :=
  bool_decide (document_id r ∈ map doc_id db).

(** ** The insertion sort as an [argsort] *)

Section Ranking.
Variable a : nat -> Q.

Lemma asc_stable_le i j : asc_stable a i j -> (a i <= a j)%Q.
Proof.
  intros [Hlt | [Heq _]]; [by apply Qlt_le_weak | by rewrite Heq; apply Qle_refl].
Qed.

Lemma le_asc_stable i j : (i < j)%nat -> (a i <= a j)%Q -> asc_stable a i j.
Proof.
  intros Hij Hle. apply Qle_lteq in Hle as [Hlt | Heq]; [by left | by right].
Qed.

Lemma insert_by_perm i l : insert_by a i l ≡ₚ i :: l.
Proof.
  induction l as [|j l IH]; simpl; [done|].
  destruct (Qle_bool (a i) (a j)); [done|].
  rewrite IH. apply perm_swap.
Qed.

Lemma insert_by_sorted i l :
  Forall (fun j => (i < j)%nat) l ->
  StronglySorted (asc_stable a) l ->
  StronglySorted (asc_stable a) (insert_by a i l).
Proof.
  induction l as [|j l IH]; simpl; intros Hlt Hs.
  { repeat constructor. }
  apply StronglySorted_cons in Hs as [Hj Hs].
  apply Forall_cons in Hlt as [Hij Hlt].
  destruct (Qle_bool (a i) (a j)) eqn:Hle.
  - apply Qle_bool_iff in Hle.
    apply StronglySorted_cons. split.
    + constructor; [by apply le_asc_stable|].
      rewrite Forall_forall in Hj, Hlt |- *. intros x Hx.
      apply le_asc_stable; [by apply Hlt|].
      eapply Qle_trans; [exact Hle | by apply asc_stable_le, Hj].
    + by apply StronglySorted_cons.
  - apply StronglySorted_cons. split; [|by apply IH].
    rewrite (insert_by_perm i l). constructor; [|done].
    left. apply Qnot_le_lt. intros Hc. apply Qle_bool_iff in Hc. congruence.
Qed.

Lemma sort_from_spec s n :
  let l := foldr (insert_by a) [] (seq s n) in
  l ≡ₚ seq s n /\ StronglySorted (asc_stable a) l.
Proof.
  revert s. induction n as [|n IH]; intros s; simpl.
  { split; [done | constructor]. }
  destruct (IH (S s)) as [Hp Hs]. split.
  - by rewrite insert_by_perm, Hp.
  - apply insert_by_sorted; [|done].
    rewrite Hp. apply Forall_forall. intros j Hj.
    apply elem_of_seq in Hj. lia.
Qed.

Lemma StronglySorted_reversed (R : relation nat) (l : list nat) :
  StronglySorted R l -> StronglySorted (flip R) (reversed l).
Proof.
  unfold reversed. induction l as [|x l IH]; simpl; intros Hs; [constructor|].
  apply StronglySorted_cons in Hs as [Hx Hs].
  apply StronglySorted_app_2; [|by apply IH|repeat constructor].
  intros x1 x2 H1 H2. apply list_elem_of_singleton in H2 as ->.
  rewrite Forall_forall in Hx. apply Hx.
  by apply list_elem_of_In, in_rev, list_elem_of_In.
Qed.
End Ranking.

(** ** Instances of the interfaces, to run the services on *)

(** The smallest vectorizer there is: every non-empty content string is one
    term.  Fitting fails when no document has a term; a document scores 1
    against a question that is its term and 0 against any other.  On
    one-word documents this is what scikit-learn computes. *)
Module Demo.
Definition no_terms (contents : list string) : bool :=
  forallb (String.eqb EmptyString) contents.

Definition demo_fit_transform (contents : list string)
  : result (unit * list string) :=
  if no_terms contents
  then Raise (ValueError
    "empty vocabulary; perhaps the documents only contain stop words")
  else Ok (tt, contents).

Definition demo_cosine_similarity (q X : list string) : result (list Q) :=
  match q with
  | [term] => Ok (map (fun c => if String.eqb c term then 1%Q else 0%Q) X)
  | _ => Raise (ValueError "Incompatible dimension for X and Y matrices")
  end.

Definition one_term_sklearn : Sklearn.
Proof.
  refine {| fitted := unit;
            csr_matrix := list string;
            fit_transform := demo_fit_transform;
            transform := fun _ question => [question];
            cosine_similarity := demo_cosine_similarity |}.
  intros contents v X question Hfit.
  unfold demo_fit_transform in Hfit.
  destruct (no_terms contents); [discriminate|].
  injection Hfit as _ <-.
  eexists; split; [reflexivity|]. split.
  - apply length_map.
  - apply List.Forall_forall. intros s Hs. apply in_map_iff in Hs.
    destruct Hs as [c [<- _]].
    destruct (String.eqb c question); discriminate.
Defined.

(** The same vectorizer with the rounding of floating point: the cosine of a
    document with a question that is its term comes out one unit in the
    last place above 1, as scikit-learn's does for some documents against
    their own content. *)
Definition one_ulp_above_one : Q := 4503599627370497 # 4503599627370496.

Definition rounded_cosine_similarity (q X : list string) : result (list Q) :=
  match q with
  | [term] =>
      Ok (map (fun c => if String.eqb c term then one_ulp_above_one else 0%Q) X)
  | _ => Raise (ValueError "Incompatible dimension for X and Y matrices")
  end.

Definition rounding_sklearn : Sklearn.
Proof.
  refine {| fitted := unit;
            csr_matrix := list string;
            fit_transform := demo_fit_transform;
            transform := fun _ question => [question];
            cosine_similarity := rounded_cosine_similarity |}.
  intros contents v X question Hfit.
  unfold demo_fit_transform in Hfit.
  destruct (no_terms contents); [discriminate|].
  injection Hfit as _ <-.
  eexists; split; [reflexivity|]. split.
  - apply length_map.
  - apply List.Forall_forall. intros s Hs. apply in_map_iff in Hs.
    destruct Hs as [c [<- _]].
    destruct (String.eqb c question); discriminate.
Defined.

(** The insertion sort, which is numpy's sort on the short arrays of the
    examples. *)
#[global] Instance insertion_numpy : Numpy.
Proof.
  refine {| argsort := insertion_argsort |}.
  - intros a. apply (sort_from_spec (at_index a) 0 (length a)).
  - intros a.
    destruct (sort_from_spec (at_index a) 0 (length a)) as [_ Hs].
    fold (insertion_argsort a) in Hs.
    induction Hs as [|x l Hs IH Hx]; constructor; [done|].
    eapply Forall_impl; [exact Hx|]. intros y. apply asc_stable_le.
Defined.

(** Three rows of the record store. *)
Definition doc_cloud : Document :=
  {| doc_id := 1; doc_title := "Cloud Computing Guide"; doc_content := "cloud" |}.
Definition doc_data : Document :=
  {| doc_id := 2; doc_title := "Data Science Overview"; doc_content := "data" |}.
Definition doc_cloud2 : Document :=
  {| doc_id := 3; doc_title := "Cloud Again"; doc_content := "cloud" |}.
(** A row whose content was cleared ([DatabaseStorageBackend.delete_content]
    writes the empty string). *)
Definition doc_blank : Document :=
  {| doc_id := 4; doc_title := "Cleared"; doc_content := EmptyString |}.

(** A retriever that was built while the store held [db]. *)
Definition built_on (db : Store) : @DocumentRetriever one_term_sklearn :=
  fst (index_documents db new_retriever).

(** The same with the scores that round up. *)
Definition rounded_built_on (db : Store) : @DocumentRetriever rounding_sklearn :=
  fst (index_documents db new_retriever).

(** A language model whose [invoke] always raises. *)
Definition failing_llm : LLM := fun _ => Raise (RuntimeError "boom").
Definition failing_settings : Settings :=
  {| USE_FAKE_LLM := false; import_FakeListLLM := Ok tt;
     huggingface_llm := Ok failing_llm |}.
Definition fake_settings : Settings :=
  {| USE_FAKE_LLM := true; import_FakeListLLM := Ok tt;
     huggingface_llm := Ok failing_llm |}.
(** An environment in which the HuggingFace model cannot be loaded. *)
Definition offline_settings : Settings :=
  {| USE_FAKE_LLM := false; import_FakeListLLM := Ok tt;
     huggingface_llm :=
       Raise (OSError "Can't load tokenizer for 'google/flan-t5-base'.") |}.
End Demo.

(** * Properties *)

(** [built] for a retriever of [Demo.built_on]: the flag by computation, the
    fit by naming the corpus contents. *)
Ltac demo_built n contents :=
  split; [reflexivity | exists n, contents, tt, contents; by repeat split].

(** ** The ranking *)

(** Short arrays, as numpy ranks them. *)
Example ranking_distinct :
  ranking [1#10; 9#10; 0#1; 1#2] = [1; 3; 0; 2]%nat.
Proof. reflexivity. Qed.

Example ranking_ties :
  ranking [1#2; 0#1; 1#2; 0#1] = [2; 0; 3; 1]%nat.
Proof. reflexivity. Qed.

Example slice_to_python :
  slice_to 2 [5; 6; 7]%nat = [5; 6]%nat /\
  slice_to 9 [5; 6; 7]%nat = [5; 6; 7]%nat /\
  slice_to 0 [5; 6; 7]%nat = @nil nat /\
  slice_to (-1) [5; 6; 7]%nat = [5; 6]%nat /\
  slice_to (-7) [5; 6; 7]%nat = @nil nat.
Proof. repeat split. Qed.

(** Whatever order an ascending sort gives to equal values, its reversal is
    in descending order of value. *)
Lemma reversed_descending (a : nat -> Q) (l : list nat) :
  StronglySorted (fun i j => (a i <= a j)%Q) l ->
  StronglySorted (fun i j => (a j <= a i)%Q) (reversed l).
Proof. apply (StronglySorted_reversed (fun i j => (a i <= a j)%Q)). Qed.

Lemma ranked_before_flip a i j : flip (asc_stable a) i j <-> ranked_before a i j.
Proof.
  unfold flip, asc_stable, ranked_before. split.
  - intros [H | [H1 H2]]; [by left | right; split; [by symmetry | done]].
  - intros [H | [H1 H2]]; [by left | right; split; [by symmetry | done]].
Qed.

Section RankingFacts.
Context `{NP : Numpy}.

Lemma ranking_perm sims : ranking sims ≡ₚ seq 0 (length sims).
Proof.
  unfold ranking, reversed. rewrite <- Permutation_rev. apply argsort_perm.
Qed.

Lemma ranking_sorted sims :
  StronglySorted (score_desc (at_index sims)) (ranking sims).
Proof. apply reversed_descending, argsort_ascending. Qed.

(** C1, amended: the ranking lists every position of the score array once,
    and no position comes before one of higher score.  Positions of equal
    score are in no order of their own: the ranking is [np.argsort]'s list
    reversed, so they come in the reverse of the order it leaves them in.
    When no two positions have equal scores, the ranking is the only list
    of the positions in descending score. *)
Theorem ranking_full_descending (sims : list Q) :
  ranking sims ≡ₚ seq 0 (length sims) /\
  StronglySorted (fun i j => (at_index sims j <= at_index sims i)%Q)
    (ranking sims) /\
  ranking sims = reversed (argsort sims) /\
  ((forall i j, (i < length sims)%nat -> (j < length sims)%nat ->
                (at_index sims i == at_index sims j)%Q -> i = j) ->
   forall l,
     l ≡ₚ seq 0 (length sims) ->
     StronglySorted (fun i j => (at_index sims j <= at_index sims i)%Q) l ->
     l = ranking sims).
Proof.
  split; [apply ranking_perm|]. split; [apply ranking_sorted|].
  split; [done|]. intros Hdistinct l Hp Hs.
  apply (StronglySorted_unique_strong (score_desc (at_index sims)));
    [| exact Hs | apply ranking_sorted | by rewrite Hp, ranking_perm].
  intros i j Hi Hj Hij Hji.
  rewrite ?Hp, ?ranking_perm in Hi. rewrite ?Hp, ?ranking_perm in Hj.
  apply elem_of_seq in Hi, Hj.
  apply Hdistinct; [lia | lia | by apply Qle_antisym].
Qed.
End RankingFacts.

(** On a short array, which numpy sorts by insertion, positions of equal
    score are ranked in descending position. *)
Lemma short_ranking_ties_descending (sims : list Q) :
  (length sims <= 16)%nat ->
  StronglySorted (ranked_before (at_index sims))
    (@ranking Demo.insertion_numpy sims).
Proof.
  intros _. unfold ranking. simpl. unfold insertion_argsort.
  pose proof (sort_from_spec (at_index sims) 0 (length sims)) as [_ Hs].
  apply StronglySorted_reversed in Hs.
  induction Hs as [|x l Hs IH Hx]; constructor; [done|].
  eapply Forall_impl; [exact Hx|]. intros y. apply ranked_before_flip.
Qed.

(** C1, as stated, fails: two documents with the same score 1/2 are ranked
    with position 1 before position 0. *)
Lemma ranking_ties_not_ascending :
  @ranking Demo.insertion_numpy [1#2; 1#2] = [1; 0]%nat /\
  ~ descending_ties_ascending [1#2; 1#2]
      (@ranking Demo.insertion_numpy [1#2; 1#2]).
Proof.
  split; [reflexivity|].
  intros [_ Hs].
  change (@ranking Demo.insertion_numpy [1#2; 1#2]) with [1; 0]%nat in Hs.
  apply StronglySorted_cons in Hs as [H _].
  apply Forall_cons in H as [[H | [_ H]] _].
  - vm_compute in H. discriminate.
  - lia.
Qed.

(** ** What [find_relevant] returns on a built index *)

Section RetrieverFacts.
Context `{SK : Sklearn} `{NP : Numpy}.
Implicit Types (self : DocumentRetriever) (sims : list Q).

Lemma collect_spec self sims min_score idxs acc :
  length (_document_ids self) = length sims ->
  length (_document_titles self) = length sims ->
  length (_document_previews self) = length sims ->
  Forall (fun i => (i < length sims)%nat) idxs ->
  collect self sims min_score idxs acc =
    Ok (acc ++ map (result_at self sims)
                   (List.filter (passes sims min_score) idxs))%list.
Proof.
  intros Hi Ht Hp. revert acc.
  induction idxs as [|idx rest IH]; intros acc Hlt; simpl.
  { by rewrite app_nil_r. }
  apply Forall_cons in Hlt as [Hidx Hrest].
  destruct (lookup_lt_is_Some_2 sims idx Hidx) as [sc Hsc].
  destruct (lookup_lt_is_Some_2 (_document_ids self) idx ltac:(lia)) as [i Hi'].
  destruct (lookup_lt_is_Some_2 (_document_titles self) idx ltac:(lia)) as [t Ht'].
  destruct (lookup_lt_is_Some_2 (_document_previews self) idx ltac:(lia)) as [p Hp'].
  rewrite Hsc, Hi', Ht', Hp'. unfold passes at 1, at_index.
  rewrite (nth_lookup_Some _ _ 0%Q _ Hsc).
  destruct (Qle_bool min_score sc); [|by apply IH].
  rewrite IH by done. simpl. rewrite <- app_assoc. simpl.
  unfold result_at at 2, at_index.
  by rewrite (nth_lookup_Some _ _ _ _ Hsc), (nth_lookup_Some _ _ _ _ Hi'),
    (nth_lookup_Some _ _ _ _ Ht'), (nth_lookup_Some _ _ _ _ Hp').
Qed.

Lemma slice_to_sublist {A} (k : Z) (l : list A) : slice_to k l `sublist_of` l.
Proof. unfold slice_to. destruct (k <? 0)%Z; apply sublist_take. Qed.

Lemma ranking_in_range sims :
  Forall (fun i => (i < length sims)%nat) (ranking sims).
Proof.
  rewrite (ranking_perm sims). apply Forall_forall. intros i Hi.
  apply elem_of_seq in Hi. lia.
Qed.

Lemma built_scores self question :
  built self ->
  let sims := similarities_of self question in
  length sims = length (_document_ids self) /\
  length sims = length (_document_titles self) /\
  length sims = length (_document_previews self) /\
  Forall (fun s => 0 <= s)%Q sims /\
  exists v X, _vectorizer self = Some (Fitted v) /\
              _tfidf_matrix self = Some X /\
              cosine_similarity (transform v question) X = Ok sims.
Proof.
  intros [_ [n (contents & v & X & Hn & Hfit & Hv & HX & Hi & Ht & Hp)]].
  destruct (fit_scores contents v X question Hfit) as (sims & Hcos & Hlen & H01).
  unfold similarities_of. rewrite Hv, HX, Hcos. simpl.
  repeat split; try congruence. eauto.
Qed.

(** On a built index [find_relevant] does not touch the object, does not
    raise, and returns [select] of the scores. *)
Lemma find_relevant_built db question top_k min_score self :
  built self ->
  find_relevant db question top_k min_score self =
    (self, Ok (select self (similarities_of self question) top_k min_score)).
Proof.
  intros Hb.
  destruct (built_scores self question Hb)
    as (Hi & Ht & Hp & _ & v & X & Hv & HX & Hcos).
  destruct Hb as [Hidx _].
  unfold find_relevant. rewrite Hidx, Hv. simpl. rewrite Hidx, HX, Hv, Hcos. simpl.
  f_equal. unfold select. rewrite collect_spec; try done.
  apply Forall_forall. intros i Hin.
  pose proof (ranking_in_range (similarities_of self question)) as Hr.
  rewrite Forall_forall in Hr. apply Hr.
  eapply elem_of_sublist; [exact Hin | apply slice_to_sublist].
Qed.
End RetrieverFacts.

(** ** Building and clearing the index *)

Section IndexState.
Context `{SK : Sklearn} `{NP : Numpy}.
Implicit Types (self : DocumentRetriever) (db : Store).

Lemma clear_index_consistent self : consistent (clear_index self).
Proof.
  split; [discriminate|].
  intros [n (contents & v & X & _ & _ & Hv & _)]. discriminate.
Qed.

Lemma new_retriever_consistent : consistent new_retriever.
Proof. apply (clear_index_consistent new_retriever). Qed.

(** A build that fits leaves a built index over the whole corpus. *)
Lemma index_documents_fitted db self v X :
  db <> [] ->
  fit_transform (map doc_content db) = Ok (v, X) ->
  exists self',
    index_documents db self = (self', Ok (length db)) /\
    _is_indexed self' = true /\
    built_over (length db) self'.
Proof.
  intros Hne Hfit. destruct db as [|d db]; [done|].
  unfold index_documents. rewrite Hfit.
  eexists; split; [by rewrite length_map|]. split; [done|].
  exists (map doc_content (d :: db)), v, X. simpl.
  by rewrite !length_map.
Qed.

(** Whenever a build returns, the index is consistent. *)
Lemma index_documents_returns_consistent db self self' n :
  index_documents db self = (self', Ok n) -> consistent self'.
Proof.
  destruct db as [|d db]; simpl.
  { intros [= <- _]. apply (clear_index_consistent self). }
  destruct (fit_transform (doc_content d :: map doc_content db))
    as [[v X]|e] eqn:Hfit; [|discriminate].
  intros [= <- _]. split; [intros _|done].
  exists (S (length db)), (doc_content d :: map doc_content db), v, X.
  simpl. by rewrite !length_map.
Qed.

(** A build on an index that was not flagged as indexed keeps it
    consistent, whatever the outcome. *)
Lemma index_documents_unindexed_consistent db self :
  _is_indexed self = false -> consistent (fst (index_documents db self)).
Proof.
  intros Hidx. destruct (index_documents db self) as [self' [n|e]] eqn:Hrun.
  { eapply index_documents_returns_consistent; eauto. }
  destruct db as [|d db]; simpl in Hrun; [discriminate|].
  destruct (fit_transform (doc_content d :: map doc_content db))
    as [[v X]|e'] eqn:Hfit; [discriminate|].
  injection Hrun as <- _. simpl. split; simpl; [congruence|].
  intros [n (contents & v & X & _ & _ & Hv & _)]. discriminate.
Qed.

(** A query keeps a consistent index consistent. *)
Lemma find_relevant_consistent db question top_k min_score self :
  consistent self ->
  consistent (fst (find_relevant db question top_k min_score self)).
Proof.
  intros Hc. unfold find_relevant.
  destruct (_is_indexed self) eqn:Hidx; simpl.
  - destruct (proj1 Hc Hidx) as [n (contents & v & X & _ & _ & Hv & HX & _)].
    rewrite Hv. simpl. rewrite Hidx, HX, Hv. simpl.
    by destruct (cosine_similarity (transform v question) X).
  - pose proof (index_documents_unindexed_consistent db self Hidx) as Hc'.
    destruct (index_documents db self) as [self' [n|e]]; simpl in *; [|done].
    destruct (_is_indexed self'); simpl; [|done].
    destruct (_tfidf_matrix self'); [|done].
    destruct (_vectorizer self') as [[|v]|]; try done.
    by destruct (cosine_similarity (transform v question) c).
Qed.

(** A build whose fit raises, on an index that is flagged as indexed, leaves
    the flag set, the vectorizer unfitted and the index inconsistent. *)
Lemma index_documents_raises_torn db self e :
  _is_indexed self = true ->
  snd (index_documents db self) = Raise e ->
  _is_indexed (fst (index_documents db self)) = true /\
  _vectorizer (fst (index_documents db self)) = Some Unfitted /\
  _tfidf_matrix (fst (index_documents db self)) = _tfidf_matrix self /\
  ~ consistent (fst (index_documents db self)).
Proof.
  intros Hidx. destruct db as [|d db]; simpl; [discriminate|].
  destruct (fit_transform (doc_content d :: map doc_content db))
    as [[v X]|e'] eqn:Hfit; simpl; [discriminate|].
  intros _. repeat split; try done.
  intros Hc. destruct (proj1 Hc Hidx) as [n (c & v & X & _ & _ & Hv & _)].
  discriminate.
Qed.

(** C2: on an empty record store [index_documents] returns 0 and leaves
    [is_indexed] false (and [document_count] 0), whatever the index held
    before; a following [find_relevant], for any question, [top_k] and
    [min_score], returns the empty list and does not raise. *)
Theorem empty_corpus_not_indexed self question (top_k : Z) (min_score : Q) :
  snd (index_documents [] self) = Ok 0%nat /\
  is_indexed (fst (index_documents [] self)) = false /\
  document_count (fst (index_documents [] self)) = 0%nat /\
  snd (find_relevant [] question top_k min_score
         (fst (index_documents [] self))) = Ok [].
Proof. repeat split. Qed.

(** C9, amended: for a non-empty record store whose contents the vectorizer
    can fit, [index_documents] returns the number of documents, and
    afterwards [is_indexed] is true and [document_count] is that number. *)
Theorem index_documents_counts_corpus db self v X :
  db <> [] ->
  fit_transform (map doc_content db) = Ok (v, X) ->
  exists self',
    index_documents db self = (self', Ok (length db)) /\
    is_indexed self' = true /\
    document_count self' = length db.
Proof.
  intros Hne Hfit.
  destruct (index_documents_fitted db self v X Hne Hfit)
    as (self' & Hrun & Hidx & (c & v' & X' & _ & _ & _ & _ & Hi & _)).
  exists self'. by repeat split.
Qed.
End IndexState.

(** C9, as stated, fails: the store holds one document, whose content is
    empty; fitting raises, so [index_documents] raises instead of
    returning 1. *)
Lemma index_documents_unfittable_corpus_raises :
  [Demo.doc_blank] <> [] /\
  snd (index_documents (SK := Demo.one_term_sklearn) [Demo.doc_blank] new_retriever)
    = Raise (ValueError
        "empty vocabulary; perhaps the documents only contain stop words") /\
  ~ (exists self',
       index_documents (SK := Demo.one_term_sklearn) [Demo.doc_blank] new_retriever
         = (self', Ok (length [Demo.doc_blank])) /\
       is_indexed self' = true /\
       document_count self' = length [Demo.doc_blank]).
Proof.
  split; [done|]. split; [reflexivity|].
  intros (self' & Hrun & _). vm_compute in Hrun. discriminate.
Qed.

(** C9, amended, on a store of two documents. *)
Lemma index_documents_counts_corpus_witness :
  [Demo.doc_cloud; Demo.doc_data] <> [] /\
  exists self',
    index_documents (SK := Demo.one_term_sklearn) [Demo.doc_cloud; Demo.doc_data]
      new_retriever = (self', Ok 2%nat) /\
    is_indexed self' = true /\
    document_count self' = 2%nat.
Proof.
  split; [done|].
  apply (index_documents_counts_corpus (SK := Demo.one_term_sklearn)
           [Demo.doc_cloud; Demo.doc_data] new_retriever tt
           ["cloud"; "data"]); [done | reflexivity].
Defined.

(** C3: a build whose fit raises leaves a torn index.  The index was built
    over two documents; then the store holds one document with empty
    content.  [index_documents] raises, and the object it leaves is still
    flagged as indexed while its vectorizer is not fitted, its matrix is the
    old one of two rows and its arrays have length 1; the next query raises
    [NotFittedError]. *)
Theorem index_documents_fit_failure_tears_index :
  let before := Demo.built_on [Demo.doc_cloud; Demo.doc_data] in
  let after := fst (index_documents [Demo.doc_blank] before) in
  consistent before /\
  snd (index_documents [Demo.doc_blank] before)
    = Raise (ValueError
        "empty vocabulary; perhaps the documents only contain stop words") /\
  is_indexed after = true /\
  _vectorizer after = Some Unfitted /\
  _tfidf_matrix after = Some ["cloud"; "data"] /\
  document_count after = 1%nat /\
  ~ consistent after /\
  snd (find_relevant [Demo.doc_blank] "cloud" 3 0 after)
    = Raise (NotFittedError "The TF-IDF vectorizer is not fitted").
Proof.
  intros before after. split.
  { eapply (index_documents_returns_consistent
              [Demo.doc_cloud; Demo.doc_data] new_retriever).
    reflexivity. }
  repeat split.
  intros Hc. destruct (proj1 Hc eq_refl) as [n (c & v & X & _ & _ & Hv & _)].
  discriminate.
Qed.

(** ** The laws of [top_k] and [min_score] *)

Lemma filter_stronger_sublist {A} (f g : A -> bool) (l : list A) :
  (forall x, g x = true -> f x = true) ->
  List.filter g l `sublist_of` List.filter f l.
Proof.
  intros Himp. induction l as [|x l IH]; simpl; [constructor|].
  destruct (g x) eqn:Hg.
  - rewrite (Himp x Hg). by constructor.
  - destruct (f x); [by constructor | done].
Qed.

Lemma map_sublist {A B} (f : A -> B) (l1 l2 : list A) :
  l1 `sublist_of` l2 -> map f l1 `sublist_of` map f l2.
Proof. induction 1; simpl; by constructor. Qed.

Lemma length_filter_le {A} (f : A -> bool) (l : list A) :
  (length (List.filter f l) <= length l)%nat.
Proof. induction l as [|x l IH]; simpl; [lia|]. destruct (f x); simpl; lia. Qed.

Lemma filter_none {A} (f : A -> bool) (l : list A) :
  (forall x, In x l -> f x = false) -> List.filter f l = [].
Proof.
  induction l as [|x l IH]; simpl; intros Hf; [done|].
  rewrite (Hf x) by auto. apply IH. auto.
Qed.

Lemma at_index_Forall (P : Q -> Prop) (sims : list Q) (i : nat) :
  Forall P sims -> (i < length sims)%nat -> P (at_index sims i).
Proof.
  intros HP Hi. rewrite Forall_forall in HP. apply HP.
  apply list_elem_of_In, nth_In, Hi.
Qed.

Lemma slice_to_nonneg {A} (k : Z) (l : list A) :
  (0 <= k)%Z -> slice_to k l = take (Z.to_nat k) l.
Proof. intros Hk. unfold slice_to. by destruct (Z.ltb_spec k 0); [lia|]. Qed.

Lemma slice_in_range `{NP : Numpy} (sims : list Q) (k : Z) (i : nat) :
  i ∈ slice_to k (ranking sims) -> (i < length sims)%nat.
Proof.
  intros Hi. pose proof (ranking_in_range sims) as Hr.
  rewrite Forall_forall in Hr. apply Hr.
  eapply elem_of_sublist; [exact Hi | apply slice_to_sublist].
Qed.

Section Query.
Context `{SK : Sklearn} `{NP : Numpy}.
Implicit Types (self : DocumentRetriever) (db : Store).

Lemma select_low_min_score self sims top_k m :
  Forall (fun s => 0 <= s)%Q sims -> (m < 0)%Q ->
  select self sims top_k m = select self sims top_k 0.
Proof.
  intros H0 Hm. unfold select. f_equal.
  apply filter_ext_in. intros i Hi.
  apply list_elem_of_In, slice_in_range in Hi.
  pose proof (at_index_Forall _ sims i H0 Hi) as Hs. unfold passes.
  transitivity true; [|symmetry]; apply Qle_bool_iff; [|done].
  apply Qlt_le_weak. eapply Qlt_le_trans; eauto.
Qed.

(** The results at a higher [min_score] are those of the results at a lower
    one whose score reaches it. *)
Lemma select_raise_min_score self sims top_k (m1 m2 : Q) :
  (m1 <= m2)%Q ->
  select self sims top_k m2 =
    List.filter (fun r => Qle_bool m2 (score r)) (select self sims top_k m1).
Proof.
  intros Hm. unfold select.
  induction (slice_to top_k (ranking sims)) as [|i l IH]; [done|].
  cbn [List.filter].
  destruct (passes sims m2 i) eqn:H2.
  - assert (passes sims m1 i = true) as ->.
    { unfold passes in *. apply Qle_bool_iff. apply Qle_bool_iff in H2.
      by eapply Qle_trans. }
    cbn [map List.filter].
    change (Qle_bool m2 (score (result_at self sims i)))
      with (passes sims m2 i).
    rewrite H2. f_equal. exact IH.
  - destruct (passes sims m1 i); [|exact IH].
    cbn [map List.filter].
    change (Qle_bool m2 (score (result_at self sims i)))
      with (passes sims m2 i).
    rewrite H2. exact IH.
Qed.

(** C5, amended: on a built index [find_relevant] with a [min_score] outside
    [0,1] does not raise; a negative [min_score] behaves like 0.0; a
    [min_score] above 1 is not clamped to 1.0: the results are those of the
    results at 1.0 whose score reaches [min_score] itself. *)
Theorem min_score_out_of_range db question top_k min_score self :
  built self ->
  (exists results,
     find_relevant db question top_k min_score self = (self, Ok results)) /\
  ((min_score < 0)%Q ->
     find_relevant db question top_k min_score self =
     find_relevant db question top_k 0 self) /\
  ((1 < min_score)%Q ->
     exists results at_one,
       find_relevant db question top_k min_score self = (self, Ok results) /\
       find_relevant db question top_k 1 self = (self, Ok at_one) /\
       results =
         List.filter (fun r => Qle_bool min_score (score r)) at_one /\
       Forall (fun r => (min_score <= score r)%Q) results).
Proof.
  intros Hb.
  destruct (built_scores self question Hb) as (_ & _ & _ & H0 & _).
  rewrite !find_relevant_built by done.
  split; [eauto|]. split.
  - intros Hm. by rewrite select_low_min_score.
  - intros Hm. do 2 eexists. split; [done|]. split; [done|].
    assert (select self (similarities_of self question) top_k min_score =
            List.filter (fun r => Qle_bool min_score (score r))
              (select self (similarities_of self question) top_k 1)) as Hsel.
    { apply select_raise_min_score. by apply Qlt_le_weak. }
    split; [exact Hsel|].
    rewrite Hsel. apply List.Forall_forall. intros r Hr.
    apply filter_In in Hr as [_ Hr]. by apply Qle_bool_iff.
Qed.

(** C6: on a built index, raising [min_score] from [m1] to [m2] returns a
    subsequence of the results at [m1]; no document id is new. *)
Theorem threshold_monotone db question top_k (m1 m2 : Q) self :
  built self ->
  (m1 < m2)%Q ->
  exists r1 r2,
    find_relevant db question top_k m1 self = (self, Ok r1) /\
    find_relevant db question top_k m2 self = (self, Ok r2) /\
    r2 `sublist_of` r1 /\
    (forall i, i ∈ map document_id r2 -> i ∈ map document_id r1).
Proof.
  intros Hb Hm. rewrite !find_relevant_built by done.
  do 2 eexists. split; [done|]. split; [done|].
  assert (select self (similarities_of self question) top_k m2
          `sublist_of` select self (similarities_of self question) top_k m1)
    as Hsub.
  { unfold select. apply map_sublist, filter_stronger_sublist.
    intros i Hi. unfold passes in *. apply Qle_bool_iff in Hi.
    apply Qle_bool_iff. apply Qlt_le_weak. eapply Qlt_le_trans; eauto. }
  split; [done|]. intros i Hi.
  eapply elem_of_sublist; [exact Hi|]. by apply map_sublist.
Qed.

(** C7: on a built index and for [top_k >= 0], [find_relevant] returns at
    most [top_k] results, and a larger [top_k] returns the same results
    followed by further ones, none of which scores higher than any of the
    earlier ones. *)
Theorem top_k_law db question (k1 k2 : Z) min_score self :
  built self ->
  (0 <= k1)%Z -> (k1 < k2)%Z ->
  exists r1 extra,
    find_relevant db question k1 min_score self = (self, Ok r1) /\
    find_relevant db question k2 min_score self = (self, Ok (r1 ++ extra)%list) /\
    (Z.of_nat (length r1) <= k1)%Z /\
    (Z.of_nat (length (r1 ++ extra)%list) <= k2)%Z /\
    Forall (fun later =>
      Forall (fun earlier => (score later <= score earlier)%Q) r1) extra.
Proof.
  intros Hb Hk1 Hk12. rewrite !find_relevant_built by done.
  set (sims := similarities_of self question).
  set (rk := ranking sims).
  set (n1 := Z.to_nat k1). set (d := Z.to_nat (k2 - k1)).
  assert (Z.to_nat k2 = (n1 + d)%nat) as Hn2 by (unfold n1, d; lia).
  exists (select self sims k1 min_score),
    (map (result_at self sims)
       (List.filter (passes sims min_score) (take d (drop n1 rk)))).
  assert (select self sims k2 min_score =
          (select self sims k1 min_score ++
           map (result_at self sims)
             (List.filter (passes sims min_score) (take d (drop n1 rk))))%list)
    as Hsplit.
  { unfold select. rewrite !slice_to_nonneg by lia. fold rk n1.
    rewrite Hn2, <- take_take_drop, List.filter_app, map_app. done. }
  split; [done|]. split; [by rewrite Hsplit|].
  assert (forall k, (0 <= k)%Z ->
            (Z.of_nat (length (select self sims k min_score)) <= k)%Z) as Hlen.
  { intros k Hk. unfold select. rewrite slice_to_nonneg, length_map by done.
    pose proof (length_filter_le (passes sims min_score)
                  (take (Z.to_nat k) (ranking sims))).
    rewrite length_take in H. lia. }
  split; [by apply Hlen|]. split; [rewrite <- Hsplit; apply Hlen; lia|].
  apply List.Forall_forall. intros later Hl.
  apply in_map_iff in Hl as (j & <- & Hj).
  apply List.Forall_forall. intros earlier He.
  unfold select in He. rewrite slice_to_nonneg in He by done.
  apply in_map_iff in He as (i & <- & Hi). simpl.
  apply filter_In in Hj as [Hj _]. apply filter_In in Hi as [Hi _].
  change (score_desc (at_index sims) i j).
  pose proof (ranking_sorted sims) as Hs. fold rk in Hs.
  rewrite <- (take_drop n1 rk) in Hs.
  eapply (StronglySorted_app_1_elem_of _ _ _ _ _ Hs).
  - by apply list_elem_of_In.
  - eapply elem_of_sublist; [by apply list_elem_of_In|]. apply sublist_take.
Qed.
End Query.

(** A negative [top_k] is a Python slice that drops from the end of the
    ranking: with three documents, [top_k = -1] returns the first two. *)
Example negative_top_k_drops_from_the_end :
  let self := Demo.built_on [Demo.doc_cloud; Demo.doc_data; Demo.doc_cloud2] in
  exists results,
    find_relevant [] "cloud" (-1) 0 self = (self, Ok results) /\
    map document_id results = [3; 1]%Z.
Proof. eexists. split; reflexivity. Qed.

(** C5, as stated, fails: one document scores exactly 1 against the
    question; with [min_score] 3/2 nothing is returned, with [min_score]
    clamped to 1 the document is. *)
Lemma min_score_above_one_not_clamped :
  let self := Demo.built_on [Demo.doc_cloud] in
  built self /\
  clamp01 (3#2) = 1%Q /\
  find_relevant [Demo.doc_cloud] "cloud" 3 (3#2) self = (self, Ok []) /\
  find_relevant [Demo.doc_cloud] "cloud" 3 (clamp01 (3#2)) self =
    (self, Ok [{| document_id := 1; title := "Cloud Computing Guide";
                  score := 1; content_preview := "cloud" |}]) /\
  find_relevant [Demo.doc_cloud] "cloud" 3 (3#2) self <>
  find_relevant [Demo.doc_cloud] "cloud" 3 (clamp01 (3#2)) self.
Proof.
  intros self. split.
  { demo_built 1%nat ["cloud"]. }
  split; [reflexivity|]. split; [reflexivity|]. split; [reflexivity|].
  intros Heq. vm_compute in Heq. discriminate.
Qed.

(** C5, amended: on an index of two documents with [min_score] -1/2; and,
    where the score of a document rounds up above 1, with that score as
    [min_score]. *)
Lemma min_score_out_of_range_witness :
  let self := Demo.built_on [Demo.doc_cloud; Demo.doc_data] in
  let rounded := Demo.rounded_built_on [Demo.doc_cloud; Demo.doc_data] in
  let above := Demo.one_ulp_above_one in
  (built self /\ (-1#2 < 0)%Q /\
   find_relevant [] "cloud" 3 (-1#2) self = find_relevant [] "cloud" 3 0 self) /\
  (built rounded /\ (1 < above)%Q /\
   exists results at_one,
     find_relevant [] "cloud" 3 above rounded = (rounded, Ok results) /\
     find_relevant [] "cloud" 3 1 rounded = (rounded, Ok at_one) /\
     results = List.filter (fun r => Qle_bool above (score r)) at_one /\
     Forall (fun r => (above <= score r)%Q) results).
Proof.
  intros self rounded above.
  assert (built self) as Hb.
  { demo_built 2%nat ["cloud"; "data"]. }
  assert (built rounded) as Hr.
  { demo_built 2%nat ["cloud"; "data"]. }
  split.
  - split; [exact Hb|]. split; [reflexivity|].
    destruct (min_score_out_of_range (SK := Demo.one_term_sklearn)
                [] "cloud" 3 (-1#2) self Hb) as (_ & Hlow & _).
    apply Hlow. reflexivity.
  - split; [exact Hr|]. split; [reflexivity|].
    destruct (min_score_out_of_range (SK := Demo.rounding_sklearn)
                [] "cloud" 3 above rounded Hr) as (_ & _ & Hhigh).
    apply Hhigh. reflexivity.
Defined.

(** A [min_score] above 1 can return a document: the one whose score rounds
    up to it. *)
Example min_score_above_one_returns_document :
  let rounded := Demo.rounded_built_on [Demo.doc_cloud; Demo.doc_data] in
  snd (find_relevant [] "cloud" 3 Demo.one_ulp_above_one rounded) =
    Ok [{| document_id := 1; title := "Cloud Computing Guide";
           score := Demo.one_ulp_above_one; content_preview := "cloud" |}].
Proof. reflexivity. Qed.

(** C6 on an index of three documents, thresholds 0 and 1/2. *)
Lemma threshold_monotone_witness :
  let self := Demo.built_on [Demo.doc_cloud; Demo.doc_data; Demo.doc_cloud2] in
  built self /\ (0 < 1#2)%Q /\
  exists r1 r2,
    find_relevant [] "cloud" 3 0 self = (self, Ok r1) /\
    find_relevant [] "cloud" 3 (1#2) self = (self, Ok r2) /\
    r2 `sublist_of` r1 /\
    (forall i, i ∈ map document_id r2 -> i ∈ map document_id r1).
Proof.
  intros self.
  assert (built self) as Hb.
  { demo_built 3%nat ["cloud"; "data"; "cloud"]. }
  split; [exact Hb|]. split; [reflexivity|].
  apply (threshold_monotone (SK := Demo.one_term_sklearn) [] "cloud" 3 0 (1#2) self Hb).
  reflexivity.
Defined.

(** C7 on an index of three documents, [top_k] 1 and 2. *)
Lemma top_k_law_witness :
  let self := Demo.built_on [Demo.doc_cloud; Demo.doc_data; Demo.doc_cloud2] in
  built self /\ (0 <= 1)%Z /\ (1 < 2)%Z /\
  exists r1 extra,
    find_relevant [] "cloud" 1 0 self = (self, Ok r1) /\
    find_relevant [] "cloud" 2 0 self = (self, Ok (r1 ++ extra)%list) /\
    (Z.of_nat (length r1) <= 1)%Z /\
    (Z.of_nat (length (r1 ++ extra)%list) <= 2)%Z /\
    Forall (fun later =>
      Forall (fun earlier => (score later <= score earlier)%Q) r1) extra.
Proof.
  intros self.
  assert (built self) as Hb.
  { demo_built 3%nat ["cloud"; "data"; "cloud"]. }
  split; [exact Hb|]. split; [lia|]. split; [lia|].
  apply (top_k_law (SK := Demo.one_term_sklearn) [] "cloud" 1 2 0 self Hb); lia.
Defined.

(** ** Resolving results to records *)

Lemma doc_map_fold_lookup (documents : list Document) (m : gmap Z Document) i :
  (foldl (fun m d => <[doc_id d := d]> m) m documents !! i = None <->
     m !! i = None /\ i ∉ map doc_id documents) /\
  (forall d, foldl (fun m d => <[doc_id d := d]> m) m documents !! i = Some d ->
     (d ∈ documents /\ doc_id d = i) \/ m !! i = Some d).
Proof.
  revert m. induction documents as [|x l IH]; intros m; simpl.
  { split; [|by right]. split; [intros ?; split; [done|]|by intros [? _]].
    apply not_elem_of_nil. }
  destruct (IH (<[doc_id x := x]> m)) as [IHn IHs]. split.
  - rewrite IHn, not_elem_of_cons.
    destruct (decide (doc_id x = i)) as [->|Hne].
    + rewrite lookup_insert_eq. split; [by intros [? _] | by intros [_ [? _]]].
    + rewrite lookup_insert_ne by done. split.
      * intros [? ?]. by repeat split.
      * by intros [? [_ ?]].
  - intros d Hd. destruct (IHs d Hd) as [[Hin Hid] | Hm].
    + left. split; [by right | done].
    + destruct (decide (doc_id x = i)) as [Heq|Hne].
      * rewrite <- Heq, lookup_insert_eq in Hm. injection Hm as <-.
        left. split; [by left | done].
      * rewrite lookup_insert_ne in Hm by done. by right.
Qed.

Lemma elem_of_objects_filter_id_in db doc_ids d :
  d ∈ objects_filter_id_in db doc_ids <-> d ∈ db /\ doc_id d ∈ doc_ids.
Proof.
  unfold objects_filter_id_in. rewrite list_elem_of_In, filter_In.
  rewrite <- list_elem_of_In, bool_decide_eq_true. done.
Qed.

Lemma omap_resolved (dm : gmap Z Document) db (rs : list RetrievalResult) :
  (forall r, In r rs ->
     dm !! document_id r = None <-> document_id r ∉ map doc_id db) ->
  (forall i d, dm !! i = Some d -> d ∈ db /\ doc_id d = i) ->
  let pairs := omap (fun r => match dm !! document_id r with
                              | Some d => Some (d, score r)
                              | None => None
                              end) rs in
  map pair_key pairs = map result_key (List.filter (resolvable db) rs) /\
  Forall (fun p => fst p ∈ db) pairs.
Proof.
  intros Hnone Hsome. induction rs as [|r rs IH]; [by split|].
  destruct IH as [IHk IHf]; [intros r' Hr'; apply Hnone; by right|].
  cbn [omap list_omap List.filter]. unfold resolvable at 1.
  destruct (dm !! document_id r) as [d|] eqn:Hd.
  - destruct (Hsome _ _ Hd) as [Hin Hid].
    rewrite bool_decide_true.
    + split; [|by constructor].
      cbn [map]. f_equal; [|exact IHk].
      unfold pair_key, result_key. simpl. by rewrite Hid.
    + destruct (decide (document_id r ∈ map doc_id db)) as [|Hn]; [done|].
      apply Hnone in Hn; [congruence | by left].
  - apply Hnone in Hd; [|by left]. rewrite bool_decide_false by done.
    split; [exact IHk | exact IHf].
Qed.

Section Resolution.
Context `{SK : Sklearn} `{NP : Numpy}.

Lemma resolve_spec (db : Store) (results : list RetrievalResult) :
  map pair_key (resolve db results) =
    map result_key (List.filter (resolvable db) results) /\
  Forall (fun p => fst p ∈ db) (resolve db results).
Proof.
  destruct results as [|r0 rs]; [by split|].
  unfold resolve. set (results := r0 :: rs).
  set (docs := objects_filter_id_in db (map document_id results)).
  apply omap_resolved.
  - intros r Hr. unfold doc_map_of.
    destruct (doc_map_fold_lookup docs ∅ (document_id r)) as [-> _].
    rewrite lookup_empty. split.
    + intros [_ Hn] Hin. apply Hn.
      apply list_elem_of_In, in_map_iff in Hin as (d & Hid & Hd).
      apply list_elem_of_In, in_map_iff. exists d. split; [done|].
      apply list_elem_of_In, elem_of_objects_filter_id_in.
      split; [by apply list_elem_of_In|]. rewrite Hid.
      apply list_elem_of_In, in_map_iff. eauto.
    + intros Hn. split; [done|]. intros Hin. apply Hn.
      apply list_elem_of_In, in_map_iff in Hin as (d & Hid & Hd).
      apply list_elem_of_In, elem_of_objects_filter_id_in in Hd as [Hd _].
      apply list_elem_of_In, in_map_iff. exists d.
      split; [done | by apply list_elem_of_In].
  - intros i d Hd. unfold doc_map_of in Hd.
    destruct (doc_map_fold_lookup docs ∅ i) as [_ Hs].
    destruct (Hs d Hd) as [[Hin Hid] | He]; [|by rewrite lookup_empty in He].
    apply elem_of_objects_filter_id_in in Hin as [Hin _]. done.
Qed.

(** C8: whatever [find_relevant] returned, [find_relevant_documents] does not
    raise; it returns, in rank order, exactly the results whose id the
    store still holds, each as a record of the store with that id paired
    with the result's score; results whose id the store no longer holds are
    left out. *)
Theorem resolution_safety (db : Store) question top_k min_score
    (self self' : DocumentRetriever) (results : list RetrievalResult) :
  find_relevant db question top_k min_score self = (self', Ok results) ->
  exists pairs,
    find_relevant_documents db question top_k min_score self
      = (self', Ok pairs) /\
    map pair_key pairs =
      map result_key (List.filter (resolvable db) results) /\
    Forall (fun p => fst p ∈ db) pairs.
Proof.
  intros Hfind. exists (resolve db results).
  unfold find_relevant_documents. rewrite Hfind.
  split; [done|]. apply resolve_spec.
Qed.
End Resolution.

(** C8 on an index built while the store held two documents on cloud, one
    of which has been deleted since. *)
Lemma resolution_safety_witness :
  let self := Demo.built_on [Demo.doc_cloud; Demo.doc_data; Demo.doc_cloud2] in
  let results :=
    [ {| document_id := 3; title := "Cloud Again"; score := 1;
         content_preview := "cloud" |};
      {| document_id := 1; title := "Cloud Computing Guide"; score := 1;
         content_preview := "cloud" |} ] in
  find_relevant [Demo.doc_cloud; Demo.doc_data] "cloud" 3 (1#2) self
    = (self, Ok results) /\
  exists pairs,
    find_relevant_documents [Demo.doc_cloud; Demo.doc_data] "cloud" 3 (1#2) self
      = (self, Ok pairs) /\
    map pair_key pairs =
      map result_key
        (List.filter (resolvable [Demo.doc_cloud; Demo.doc_data]) results) /\
    Forall (fun p => fst p ∈ [Demo.doc_cloud; Demo.doc_data]) pairs.
Proof.
  intros self results. split; [reflexivity|].
  apply (resolution_safety (SK := Demo.one_term_sklearn)
           [Demo.doc_cloud; Demo.doc_data] "cloud" 3 (1#2) self self results).
  reflexivity.
Defined.

(** The deleted document is left out, the other keeps its score. *)
Example resolution_drops_deleted_document :
  snd (find_relevant_documents [Demo.doc_cloud; Demo.doc_data] "cloud" 3 (1#2)
         (Demo.built_on [Demo.doc_cloud; Demo.doc_data; Demo.doc_cloud2]))
  = Ok [(Demo.doc_cloud, 1%Q)].
Proof. vm_compute. reflexivity. Qed.

(** ** The answer chain *)

(** [_initialize] either returns, leaving the service initialised, or raises
    and leaves the service as it was, not initialised. *)
Lemma _initialize_outcome settings qa :
  (snd (_initialize settings qa) = Ok tt /\
   _initialized (fst (_initialize settings qa)) = true) \/
  (exists e, _initialize settings qa = (qa, Raise e) /\
             _initialized qa = false).
Proof.
  unfold _initialize, _init_fake_llm, _init_huggingface_llm.
  destruct (_initialized qa) eqn:Hinit; [by left|].
  destruct (USE_FAKE_LLM settings).
  - destruct (import_FakeListLLM settings) as [u|e]; [by left | right; eauto].
  - destruct (huggingface_llm settings) as [llm|e]; [by left | right; eauto].
Qed.

(** What [_initialize] raises leaves [generate_answer], before the documents
    are looked at. *)
Lemma generate_answer_init_raises settings question documents qa e :
  snd (_initialize settings qa) = Raise e ->
  generate_answer settings question documents qa = (qa, [], Raise e).
Proof.
  intros Hinit. unfold generate_answer.
  destruct (_initialize_outcome settings qa) as [[Hok _] | (e' & Hrun & _)].
  - congruence.
  - rewrite Hrun in Hinit |- *. simpl in Hinit. congruence.
Qed.

(** Once [_initialize] has returned, [generate_answer] returns a string. *)
Lemma generate_answer_init_returns settings question documents qa :
  snd (_initialize settings qa) = Ok tt ->
  exists prompts s,
    generate_answer settings question documents qa =
      (fst (_initialize settings qa), prompts, Ok s).
Proof.
  intros Hinit. unfold generate_answer.
  destruct (_initialize settings qa) as [qa' [[]|e]]; [|discriminate]. simpl.
  destruct documents as [|d ds]; [by do 2 eexists|].
  destruct (_llm qa') as [llm|]; [|by do 2 eexists].
  by destruct (llm _) as [[s|c]|e]; do 2 eexists.
Qed.


(** C10, as stated, fails: the service is new and the model cannot be
    loaded; with no documents [generate_answer] raises what the loader
    raised instead of returning the fixed string. *)
Lemma generate_answer_no_documents_load_raises :
  generate_answer Demo.offline_settings "cloud" [] new_qa_service =
    (new_qa_service, [],
     Raise (OSError "Can't load tokenizer for 'google/flan-t5-base'.")) /\
  snd (generate_answer Demo.offline_settings "cloud" [] new_qa_service) <>
    Ok "No relevant documents found to answer this question.".
Proof. split; [reflexivity | discriminate]. Qed.

(** C10, amended: when the lazy initialisation of the service returns (the
    service is initialised already, or its model loads), [generate_answer]
    with no retrieved documents returns the fixed string, whatever the
    question and whatever language model is configured, and passes no
    prompt to the model. *)
Theorem generate_answer_no_documents settings (question : string) qa :
  snd (_initialize settings qa) = Ok tt ->
  generate_answer settings question [] qa =
    (fst (_initialize settings qa), [],
     Ok "No relevant documents found to answer this question.").
Proof.
  intros Hinit. unfold generate_answer.
  by destruct (_initialize settings qa) as [qa' [[]|e]].
Qed.

(** C10, amended, on a new service whose model is one that raises on every
    prompt. *)
Lemma generate_answer_no_documents_witness :
  snd (_initialize Demo.failing_settings new_qa_service) = Ok tt /\
  generate_answer Demo.failing_settings "cloud" [] new_qa_service =
    ({| _llm := Some Demo.failing_llm; _chain := None;
        _initialized := true |}, [],
     Ok "No relevant documents found to answer this question.").
Proof.
  split; [reflexivity|].
  apply (generate_answer_no_documents Demo.failing_settings "cloud"
           new_qa_service).
  reflexivity.
Defined.


Section AnswerFacts.
Context `{SK : Sklearn} `{NP : Numpy}.


(** The retriever [answer_question] leaves does not depend on the language
    model, the service object or the clock. *)
Lemma answer_question_retriever_independent settings1 settings2 qa1 qa2
    (db : Store) now1 now2 retr question :
  retriever (fst (answer_question settings1 db now1
     {| retriever := retr; qa_service := qa1; question_row := question |})) =
  retriever (fst (answer_question settings2 db now2
     {| retriever := retr; qa_service := qa2; question_row := question |})).
Proof.
  unfold answer_question. simpl.
  destruct (if negb (is_indexed retr) then refresh_index db retr
            else (retr, Ok 0%nat)) as [retr1 [n|e]]; [|done].
  destruct (find_relevant_documents db (text question) 3 (1 # 20) retr1)
    as [retr2 [documents|e]]; [|done].
  destruct (generate_answer settings1 (text question) documents qa1)
    as [[qa1' c1] [a1|e1]];
  destruct (generate_answer settings2 (text question) documents qa2)
    as [[qa2' c2] [a2|e2]]; done.
Qed.
End AnswerFacts.


(** ** Scenarios of the repository's tests *)

(** [test_clear_index] *)
Example clear_index_after_build :
  let self := clear_index (Demo.built_on [Demo.doc_cloud; Demo.doc_data]) in
  is_indexed self = false /\ document_count self = 0%nat.
Proof. by split. Qed.

(** [test_find_relevant_cloud_query], on one-word documents *)
Example cloud_query_top_1 :
  snd (find_relevant [Demo.doc_cloud; Demo.doc_data] "cloud" 1 0
         (Demo.built_on [Demo.doc_cloud; Demo.doc_data]))
  = Ok [{| document_id := 1; title := "Cloud Computing Guide"; score := 1;
           content_preview := "cloud" |}].
Proof. reflexivity. Qed.

(** [test_find_relevant_with_min_score] *)
Example unknown_query_min_score :
  snd (find_relevant [Demo.doc_cloud; Demo.doc_data] "xyz random query" 3 (1#2)
         (Demo.built_on [Demo.doc_cloud; Demo.doc_data]))
  = Ok [].
Proof. reflexivity. Qed.

(** A first query builds the index by itself. *)
Example lazy_build_on_first_query :
  find_relevant [Demo.doc_cloud; Demo.doc_data] "data" 3 (1#2)
    (new_retriever (SK := Demo.one_term_sklearn))
  = (Demo.built_on [Demo.doc_cloud; Demo.doc_data],
     Ok [{| document_id := 2; title := "Data Science Overview"; score := 1;
            content_preview := "data" |}]).
Proof. reflexivity. Qed.

(** With [USE_FAKE_LLM] the canned response is the answer, and one prompt
    was passed to the model. *)
Example fake_llm_answer :
  let '(_, prompts, outcome) :=
    generate_answer Demo.fake_settings "cloud" [(Demo.doc_cloud, 1%Q)]
      new_qa_service in
  length prompts = 1%nat /\
  exists canned, fake_llm "any prompt" = Ok (StrResponse canned) /\
                 outcome = Ok canned.
Proof. split; [done|]. by eexists. Qed.

(** * More of the code *)

(** ** Rebuilding the index *)

Section Rebuild.
Context `{SK : Sklearn} `{NP : Numpy}.
Implicit Types (self : DocumentRetriever) (db : Store).

Lemma index_documents_again db self :
  index_documents db (fst (index_documents db self)) = index_documents db self.
Proof.
  destruct db as [|d db]; [reflexivity|]. unfold index_documents.
  by destruct (fit_transform (map doc_content (d :: db))) as [[v X]|e].
Qed.

Lemma index_documents_state_free db self1 self2 :
  snd (index_documents db self1) = snd (index_documents db self2) /\
  (forall n, snd (index_documents db self1) = Ok n ->
             fst (index_documents db self1) = fst (index_documents db self2)).
Proof.
  destruct db as [|d db]; [by split|]. unfold index_documents.
  destruct (fit_transform (map doc_content (d :: db))) as [[v X]|e];
    simpl; by split.
Qed.

(** X1: [index_documents] is idempotent: a second build on the same store
    has the outcome of the first and leaves the object the first left, also
    when the fit raises. *)
Theorem index_documents_idempotent db self :
  index_documents db (fst (index_documents db self)) = index_documents db self.
Proof.
  destruct db as [|d db]; [reflexivity|]. unfold index_documents.
  destruct (fit_transform (map doc_content (d :: db))) as [[v X]|e];
    reflexivity.
Qed.

(** X2: the outcome of a build does not depend on what the index held, and
    a build that returns leaves an object that does not depend on it
    either. *)
Theorem index_documents_forgets_previous db self1 self2 :
  snd (index_documents db self1) = snd (index_documents db self2) /\
  (forall n, snd (index_documents db self1) = Ok n ->
             fst (index_documents db self1) = fst (index_documents db self2)).
Proof.
  destruct db as [|d db]; [by split|]. unfold index_documents.
  destruct (fit_transform (map doc_content (d :: db))) as [[v X]|e]; simpl.
  - by split.
  - split; [done | discriminate].
Qed.

(** What a build that returns on a non-empty store leaves. *)
Lemma index_documents_ok_inv db self0 self n :
  index_documents db self0 = (self, Ok n) ->
  db <> [] ->
  built self /\
  n = length db /\
  _document_ids self = map doc_id db /\
  _document_titles self = map doc_title db /\
  _document_previews self = map (fun d => preview_of (doc_content d)) db.
Proof.
  intros Hrun Hne. destruct db as [|d db]; [done|].
  unfold index_documents in Hrun.
  destruct (fit_transform (map doc_content (d :: db))) as [[v X]|e] eqn:Hfit;
    [|discriminate].
  injection Hrun as <- <-. simpl. rewrite length_map.
  repeat split; try done.
  exists (S (length db)), (map doc_content (d :: db)), v, X.
  simpl. by rewrite !length_map.
Qed.

(** X3: a built index never looks at the store: a query on it returns the
    same results whatever the store holds now, and leaves the object as it
    was. *)
Theorem built_index_ignores_store db1 db2 question top_k min_score self :
  built self ->
  find_relevant db1 question top_k min_score self =
  find_relevant db2 question top_k min_score self /\
  fst (find_relevant db1 question top_k min_score self) = self.
Proof. intros Hb. by rewrite !find_relevant_built. Qed.

(** A query on an object that is not flagged as indexed is a query on the
    object a build leaves. *)
Lemma find_relevant_after_build db question top_k min_score self :
  _is_indexed self = false ->
  find_relevant db question top_k min_score (fst (index_documents db self)) =
  find_relevant db question top_k min_score self.
Proof.
  intros Hidx. unfold find_relevant at 2. rewrite Hidx. simpl.
  pose proof (index_documents_again db self) as Hidem.
  destruct (index_documents db self) as [self1 [n|e]] eqn:Hrun;
    simpl in Hidem |- *.
  - unfold find_relevant.
    destruct (_is_indexed self1) eqn:Hidx1; simpl.
    + destruct db as [|d db]; simpl in Hrun.
      { injection Hrun as <- _. discriminate. }
      destruct (fit_transform (doc_content d :: map doc_content db))
        as [[v X]|e]; [|discriminate].
      injection Hrun as <- _. done.
    + rewrite Hidem. simpl. by rewrite Hidx1.
  - assert (_is_indexed self1 = false) as Hidx1.
    { destruct db as [|d db]; simpl in Hrun; [discriminate|].
      destruct (fit_transform (doc_content d :: map doc_content db))
        as [[v X]|e']; [discriminate|].
      injection Hrun as <- _. done. }
    unfold find_relevant. rewrite Hidx1. simpl. by rewrite Hidem.
Qed.

(** X4: the refresh the view makes before it queries changes nothing: the
    sequence has the outcome and leaves the object of [find_relevant]
    alone, on every retriever and store. *)
Theorem refresh_before_query_is_redundant db question top_k min_score self :
  retrieve_with_refresh db question top_k min_score self =
  find_relevant db question top_k min_score self.
Proof.
  unfold retrieve_with_refresh, refresh_index, is_indexed.
  destruct (_is_indexed self) eqn:Hidx; simpl; [done|].
  pose proof (find_relevant_after_build db question top_k min_score self Hidx)
    as Hafter.
  destruct (index_documents db self) as [self1 [n|e]] eqn:Hrun; [done|].
  unfold find_relevant. by rewrite Hidx, Hrun.
Qed.

(** X5: after [clear_index] the next query rebuilds the index from the
    store as it is now: on a non-empty store that fits, it leaves the object
    a build on that store leaves, indexed over all its documents. *)
Theorem query_after_clear_rebuilds db question top_k min_score self v X :
  db <> [] ->
  fit_transform (map doc_content db) = Ok (v, X) ->
  exists results,
    find_relevant db question top_k min_score (clear_index self)
      = (fst (index_documents db self), Ok results) /\
    snd (index_documents db self) = Ok (length db) /\
    is_indexed (fst (index_documents db self)) = true /\
    document_count (fst (index_documents db self)) = length db.
Proof.
  intros Hne Hfit.
  destruct (index_documents_fitted db self v X Hne Hfit)
    as (self' & Hrun & Hidx & Hover).
  assert (built self') as Hb by (split; eauto).
  destruct (index_documents_state_free db self (clear_index self))
    as [_ Hst].
  rewrite Hrun in Hst |- *. simpl in Hst |- *.
  specialize (Hst _ eq_refl).
  eexists. split.
  - rewrite <- (find_relevant_after_build db question top_k min_score
                  (clear_index self)) by done.
    rewrite <- Hst. by apply find_relevant_built.
  - split; [done|]. split; [done|].
    destruct Hover as (c & v' & X' & _ & _ & _ & _ & Hi & _). done.
Qed.
End Rebuild.

(** X5 on a store of two documents. *)
Lemma query_after_clear_rebuilds_witness :
  let db := [Demo.doc_cloud; Demo.doc_data] in
  let self := Demo.built_on [Demo.doc_cloud2] in
  db <> [] /\
  exists results,
    find_relevant db "data" 3 0 (clear_index self)
      = (fst (index_documents db self), Ok results) /\
    snd (index_documents db self) = Ok (length db) /\
    is_indexed (fst (index_documents db self)) = true /\
    document_count (fst (index_documents db self)) = length db.
Proof.
  intros db self. split; [done|].
  apply (query_after_clear_rebuilds (SK := Demo.one_term_sklearn) db "data" 3 0 self
           tt ["cloud"; "data"]); [done | reflexivity].
Defined.

(** X3 on an index built over three documents, queried while the store is
    empty and while it holds one document. *)
Lemma built_index_ignores_store_witness :
  let self := Demo.built_on [Demo.doc_cloud; Demo.doc_data; Demo.doc_cloud2] in
  built self /\
  find_relevant [] "cloud" 3 0 self =
  find_relevant [Demo.doc_blank] "cloud" 3 0 self /\
  fst (find_relevant [] "cloud" 3 0 self) = self.
Proof.
  intros self.
  assert (built self) as Hb.
  { demo_built 3%nat ["cloud"; "data"; "cloud"]. }
  split; [exact Hb|].
  exact (built_index_ignores_store (SK := Demo.one_term_sklearn) [] [Demo.doc_blank]
           "cloud" 3 0 self Hb).
Defined.

(** ** What the results of a query hold *)

Lemma list_filter_sublist {A} (p : A -> bool) (l : list A) :
  List.filter p l `sublist_of` l.
Proof.
  induction l as [|x l IH]; simpl; [constructor|].
  destruct (p x); by constructor.
Qed.

Lemma StronglySorted_sublist {A} (R : relation A) (l1 l2 : list A) :
  l1 `sublist_of` l2 -> StronglySorted R l2 -> StronglySorted R l1.
Proof.
  induction 1 as [|x l1 l2 Hsub IH|x l1 l2 Hsub IH]; intros Hs; [done| |].
  - apply StronglySorted_cons in Hs as [Hx Hs].
    apply StronglySorted_cons. split; [|by apply IH].
    rewrite Forall_forall in Hx |- *. intros y Hy. apply Hx.
    by eapply elem_of_sublist.
  - apply StronglySorted_cons in Hs as [_ Hs]. by apply IH.
Qed.

Lemma StronglySorted_map {A B} (f : A -> B) (R : relation A) (R' : relation B)
    (l : list A) :
  (forall x y, R x y -> R' (f x) (f y)) ->
  StronglySorted R l -> StronglySorted R' (map f l).
Proof.
  intros Hf. induction 1 as [|x l Hs IH Hx]; simpl; constructor; [done|].
  apply List.Forall_forall. intros y Hy. apply in_map_iff in Hy as (z & <- & Hz).
  apply Hf. rewrite List.Forall_forall in Hx. by apply Hx.
Qed.

(** On a list in an order that [p] respects, the first [n] that satisfy [p]
    are those of the first [n] that satisfy [p]. *)
Lemma filter_take_sorted {A} (R : relation A) (p : A -> bool) (l : list A) n :
  StronglySorted R l ->
  (forall x y, R x y -> p y = true -> p x = true) ->
  List.filter p (take n l) = take n (List.filter p l).
Proof.
  intros Hs Hp. revert n.
  induction Hs as [|x l Hs IH Hx]; intros n; [by destruct n|].
  destruct n as [|n]; [done|]. simpl.
  destruct (p x) eqn:Hpx; simpl; [by rewrite IH|].
  assert (forall y, In y l -> p y = false) as Hnone.
  { intros y Hy. apply not_true_is_false. intros Hpy.
    rewrite List.Forall_forall in Hx.
    rewrite (Hp x y (Hx y Hy) Hpy) in Hpx. discriminate. }
  rewrite (filter_none p l Hnone), take_nil.
  apply filter_none. intros y Hy. apply Hnone.
  apply list_elem_of_In. eapply elem_of_sublist; [by apply list_elem_of_In|].
  apply sublist_take.
Qed.

Lemma nth_map_lookup {A B} (f : A -> B) (l : list A) (i : nat) (d : B) (x : A) :
  l !! i = Some x -> nth i (map f l) d = f x.
Proof.
  revert i. induction l as [|y l IH]; intros [|i]; simpl; try done.
  - by intros [= ->].
  - apply IH.
Qed.

Section Results.
Context `{SK : Sklearn} `{NP : Numpy}.
Implicit Types (self : DocumentRetriever) (db : Store).

Lemma passes_respects_ranking (sims : list Q) (m : Q) (i j : nat) :
  score_desc (at_index sims) i j ->
  passes sims m j = true -> passes sims m i = true.
Proof.
  unfold passes, score_desc. intros Hr Hj.
  apply Qle_bool_iff in Hj. apply Qle_bool_iff.
  eapply Qle_trans; [exact Hj | exact Hr].
Qed.

(** X6: every result of a query on a built index scores at least
    [min_score] and is not negative, the results come in descending order
    of score, and there are no more of them than indexed documents. *)
Theorem results_meet_threshold_in_order db question top_k min_score self :
  built self ->
  exists results,
    find_relevant db question top_k min_score self = (self, Ok results) /\
    Forall (fun r => (min_score <= score r /\ 0 <= score r)%Q) results /\
    StronglySorted (fun r1 r2 => (score r2 <= score r1)%Q) results /\
    (length results <= document_count self)%nat.
Proof.
  intros Hb.
  destruct (built_scores self question Hb) as (Hlen & _ & _ & H0 & _).
  rewrite find_relevant_built by done. eexists. split; [done|].
  set (sims := similarities_of self question) in *.
  unfold select. repeat split.
  - apply List.Forall_forall. intros r Hr.
    apply in_map_iff in Hr as (i & <- & Hi).
    apply filter_In in Hi as [Hi Hp]. simpl.
    apply list_elem_of_In, slice_in_range in Hi.
    pose proof (at_index_Forall _ sims i H0 Hi) as Hs.
    split; [by apply Qle_bool_iff|done].
  - apply (StronglySorted_map _ (score_desc (at_index sims)));
      [by intros i j|].
    eapply StronglySorted_sublist; [apply list_filter_sublist|].
    eapply StronglySorted_sublist; [apply slice_to_sublist|].
    apply ranking_sorted.
  - rewrite length_map. unfold document_count. rewrite <- Hlen.
    etrans; [apply length_filter_le|].
    etrans; [apply sublist_length, slice_to_sublist|].
    by rewrite (ranking_perm sims), length_seq.
Qed.

Lemma select_first_top_k self (sims : list Q) (top_k : Z) min_score :
  (0 <= top_k)%Z ->
  select self sims top_k min_score =
    map (result_at self sims)
      (take (Z.to_nat top_k)
         (List.filter (passes sims min_score) (ranking sims))).
Proof.
  intros Hk. unfold select. rewrite slice_to_nonneg by done.
  rewrite (filter_take_sorted (score_desc (at_index sims))); [done| |].
  - apply ranking_sorted.
  - intros i j. apply passes_respects_ranking.
Qed.

(** X7: for [top_k >= 0] the results are the first [top_k], in ranking
    order, of the documents that reach [min_score]: cutting the ranking
    before filtering loses no document that reaches it. *)
Theorem results_are_first_top_k_passing db question (top_k : Z) min_score self :
  built self ->
  (0 <= top_k)%Z ->
  let sims := similarities_of self question in
  find_relevant db question top_k min_score self =
    (self, Ok (map (result_at self sims)
                 (take (Z.to_nat top_k)
                    (List.filter (passes sims min_score) (ranking sims))))).
Proof.
  intros Hb Hk sims. rewrite find_relevant_built by done. fold sims.
  by rewrite select_first_top_k.
Qed.

(** X8: when a query with [top_k >= 0] returns fewer than [top_k] results,
    every indexed document that reaches [min_score] is among them. *)
Theorem fewer_than_top_k_is_all_passing db question (top_k : Z) min_score self
    (results : list RetrievalResult) (i : nat) :
  built self ->
  (0 <= top_k)%Z ->
  find_relevant db question top_k min_score self = (self, Ok results) ->
  (Z.of_nat (length results) < top_k)%Z ->
  (i < document_count self)%nat ->
  (min_score <= at_index (similarities_of self question) i)%Q ->
  result_at self (similarities_of self question) i ∈ results.
Proof.
  intros Hb Hk Hfind Hfew Hi Hpass.
  destruct (built_scores self question Hb) as (Hlen & _).
  rewrite find_relevant_built, select_first_top_k in Hfind by done.
  injection Hfind as <-.
  set (sims := similarities_of self question) in *.
  rewrite length_map, length_take in Hfew.
  rewrite take_ge by lia.
  apply list_elem_of_In, in_map, filter_In. split.
  - apply list_elem_of_In. rewrite (ranking_perm sims).
    apply elem_of_seq. unfold document_count in Hi. lia.
  - by apply Qle_bool_iff.
Qed.

Lemma select_describes_store db self0 self n (sims : list Q) top_k min_score :
  index_documents db self0 = (self, Ok n) ->
  db <> [] ->
  length sims = length db ->
  Forall (fun r => exists d, d ∈ db /\
                     document_id r = doc_id d /\
                     title r = doc_title d /\
                     content_preview r = preview_of (doc_content d))
         (select self sims top_k min_score).
Proof.
  intros Hrun Hne Hlen.
  destruct (index_documents_ok_inv db self0 self n Hrun Hne)
    as (Hb & _ & Hids & Htitles & Hprev).
  apply List.Forall_forall. intros r Hr. unfold select in Hr.
  apply in_map_iff in Hr as (i & <- & Hi).
  apply filter_In in Hi as [Hi _].
  apply list_elem_of_In, slice_in_range in Hi.
  rewrite Hlen in Hi.
  destruct (lookup_lt_is_Some_2 db i Hi) as [d Hd].
  exists d. split; [by eapply list_elem_of_lookup_2|].
  unfold result_at. simpl. rewrite Hids, Htitles, Hprev.
  by rewrite !(nth_map_lookup _ db i _ d Hd).
Qed.

(** X9: every result of a query on an index that [index_documents] built
    from a store describes a document of that store: its id, its title and
    the preview of its content, whatever the store holds at the query. *)
Theorem results_describe_indexed_documents db db' question top_k min_score
    self0 self n :
  index_documents db self0 = (self, Ok n) ->
  db <> [] ->
  exists results,
    find_relevant db' question top_k min_score self = (self, Ok results) /\
    Forall (fun r => exists d, d ∈ db /\
                       document_id r = doc_id d /\
                       title r = doc_title d /\
                       content_preview r = preview_of (doc_content d))
           results.
Proof.
  intros Hrun Hne.
  destruct (index_documents_ok_inv db self0 self n Hrun Hne)
    as (Hb & _ & Hids & Htitles & Hprev).
  destruct (built_scores self question Hb) as (Hlen & _).
  rewrite find_relevant_built by done. eexists. split; [done|].
  eapply select_describes_store; eauto.
  by rewrite Hlen, Hids, length_map.
Qed.

(** X10: when the documents of the store have distinct ids, no document is
    returned twice. *)
Theorem results_have_distinct_ids db db' question top_k min_score
    self0 self n (results : list RetrievalResult) :
  index_documents db self0 = (self, Ok n) ->
  db <> [] ->
  NoDup (map doc_id db) ->
  find_relevant db' question top_k min_score self = (self, Ok results) ->
  NoDup (map document_id results).
Proof.
  intros Hrun Hne Hnd Hfind.
  destruct (index_documents_ok_inv db self0 self n Hrun Hne)
    as (Hb & _ & Hids & _).
  destruct (built_scores self question Hb) as (Hlen & _).
  rewrite find_relevant_built in Hfind by done. injection Hfind as <-.
  set (sims := similarities_of self question) in *.
  unfold select. rewrite map_map.
  apply (NoDup_fmap_2_strong (fun i => document_id (result_at self sims i))).
  - intros i j Hi Hj Heq. simpl in Heq.
    apply list_elem_of_In, filter_In in Hi as [Hi _].
    apply list_elem_of_In, filter_In in Hj as [Hj _].
    apply list_elem_of_In, slice_in_range in Hi, Hj.
    rewrite Hlen in Hi, Hj.
    destruct (lookup_lt_is_Some_2 _ i Hi) as [x Hx].
    destruct (lookup_lt_is_Some_2 _ j Hj) as [y Hy].
    rewrite (nth_lookup_Some _ _ _ _ Hx), (nth_lookup_Some _ _ _ _ Hy) in Heq.
    subst y. rewrite Hids in Hx, Hy.
    by eapply NoDup_lookup.
  - eapply sublist_NoDup; [|apply list_filter_sublist].
    eapply sublist_NoDup; [|apply slice_to_sublist].
    rewrite (ranking_perm sims). apply NoDup_seq.
Qed.
End Results.

(** X6 on an index of three documents, two of which score above 1. *)
Lemma results_meet_threshold_in_order_witness :
  let self :=
    Demo.rounded_built_on [Demo.doc_cloud; Demo.doc_data; Demo.doc_cloud2] in
  built self /\
  exists results,
    find_relevant [] "cloud" 2 (1#2) self = (self, Ok results) /\
    Forall (fun r => ((1#2) <= score r /\ 0 <= score r)%Q) results /\
    StronglySorted (fun r1 r2 => (score r2 <= score r1)%Q) results /\
    (length results <= document_count self)%nat.
Proof.
  intros self.
  assert (built self) as Hb.
  { demo_built 3%nat ["cloud"; "data"; "cloud"]. }
  split; [exact Hb|].
  exact (results_meet_threshold_in_order (SK := Demo.rounding_sklearn) [] "cloud" 2
           (1#2) self Hb).
Defined.

(** X7 on an index of three documents, [top_k] 1. *)
Lemma results_are_first_top_k_passing_witness :
  let self := Demo.built_on [Demo.doc_cloud; Demo.doc_data; Demo.doc_cloud2] in
  let sims := similarities_of self "cloud" in
  built self /\ (0 <= 1)%Z /\
  find_relevant [] "cloud" 1 (1#2) self =
    (self, Ok (map (result_at self sims)
                 (take (Z.to_nat 1)
                    (List.filter (passes sims (1#2)) (ranking sims))))).
Proof.
  intros self sims.
  assert (built self) as Hb.
  { demo_built 3%nat ["cloud"; "data"; "cloud"]. }
  split; [exact Hb|]. split; [lia|].
  apply (results_are_first_top_k_passing (SK := Demo.one_term_sklearn) [] "cloud" 1
           (1#2) self Hb). lia.
Defined.

(** X8: two of three documents reach 1/2, [top_k] is 3, and the document at
    position 0 is among the two results. *)
Lemma fewer_than_top_k_is_all_passing_witness :
  let self := Demo.built_on [Demo.doc_cloud; Demo.doc_data; Demo.doc_cloud2] in
  let results :=
    [ {| document_id := 3; title := "Cloud Again"; score := 1;
         content_preview := "cloud" |};
      {| document_id := 1; title := "Cloud Computing Guide"; score := 1;
         content_preview := "cloud" |} ] in
  (Z.of_nat (length results) < 3)%Z /\
  result_at self (similarities_of self "cloud") 0 ∈ results.
Proof.
  intros self results. split; [simpl; lia|].
  apply (fewer_than_top_k_is_all_passing (SK := Demo.one_term_sklearn) [] "cloud" 3
           (1#2) self results 0%nat).
  - demo_built 3%nat ["cloud"; "data"; "cloud"].
  - lia.
  - reflexivity.
  - simpl. lia.
  - apply Nat.ltb_lt. reflexivity.
  - vm_compute. discriminate.
Defined.

(** X9 on an index built from two documents and queried on an empty
    store. *)
Lemma results_describe_indexed_documents_witness :
  let db := [Demo.doc_cloud; Demo.doc_data] in
  db <> [] /\
  exists results,
    find_relevant [] "data" 3 0 (Demo.built_on db)
      = (Demo.built_on db, Ok results) /\
    Forall (fun r => exists d, d ∈ db /\
                       document_id r = doc_id d /\
                       title r = doc_title d /\
                       content_preview r = preview_of (doc_content d))
           results.
Proof.
  intros db. split; [done|].
  apply (results_describe_indexed_documents (SK := Demo.one_term_sklearn) db []
           "data" 3 0 new_retriever (Demo.built_on db) 2%nat);
    [reflexivity | done].
Defined.

(** X10 on an index built from three documents with ids 1, 2, 3. *)
Lemma results_have_distinct_ids_witness :
  let db := [Demo.doc_cloud; Demo.doc_data; Demo.doc_cloud2] in
  NoDup (map doc_id db) /\
  NoDup (map document_id
           (select (Demo.built_on db)
              (similarities_of (Demo.built_on db) "cloud") 3 0)).
Proof.
  intros db.
  assert (NoDup (map doc_id db)) as Hnd.
  { apply NoDup_ListNoDup. repeat constructor; simpl; intuition discriminate. }
  split; [exact Hnd|].
  apply (results_have_distinct_ids (SK := Demo.one_term_sklearn) db [] "cloud" 3 0
           new_retriever (Demo.built_on db) 3%nat);
    [reflexivity | done | exact Hnd | reflexivity].
Defined.

(** ** More on resolving results *)

Lemma filter_all {A} (p : A -> bool) (l : list A) :
  (forall x, In x l -> p x = true) -> List.filter p l = l.
Proof.
  induction l as [|x l IH]; simpl; intros Hp; [done|].
  rewrite (Hp x) by auto. f_equal. apply IH. auto.
Qed.

Section MoreResolution.
Context `{SK : Sklearn} `{NP : Numpy}.
Implicit Types (self : DocumentRetriever) (db : Store).

(** X11: on the store the index was built from, resolution drops nothing:
    [find_relevant_documents] returns one pair per result of
    [find_relevant], in the same order, with the result's id and score and
    a document of the store. *)
Theorem unchanged_store_resolves_every_result db question top_k min_score
    self0 self n :
  index_documents db self0 = (self, Ok n) ->
  db <> [] ->
  exists results pairs,
    find_relevant db question top_k min_score self = (self, Ok results) /\
    find_relevant_documents db question top_k min_score self
      = (self, Ok pairs) /\
    map pair_key pairs = map result_key results /\
    Forall (fun p => fst p ∈ db) pairs.
Proof.
  intros Hrun Hne.
  destruct (index_documents_ok_inv db self0 self n Hrun Hne)
    as (Hb & _ & Hids & _).
  destruct (built_scores self question Hb) as (Hlen & _).
  set (sims := similarities_of self question) in *.
  exists (select self sims top_k min_score),
    (resolve db (select self sims top_k min_score)).
  unfold find_relevant_documents. rewrite find_relevant_built by done.
  fold sims. split; [done|]. split; [done|].
  destruct (resolve_spec db (select self sims top_k min_score)) as [Hk Hin].
  split; [|done]. rewrite Hk. f_equal. apply filter_all.
  intros r Hr. unfold resolvable. apply bool_decide_eq_true.
  assert (length sims = length db) as Hlen'
    by (by rewrite Hlen, Hids, length_map).
  pose proof (select_describes_store db self0 self n sims top_k min_score
                Hrun Hne Hlen') as Hd.
  rewrite List.Forall_forall in Hd. destruct (Hd r Hr) as (d & Hdin & -> & _).
  apply list_elem_of_In, in_map, list_elem_of_In, Hdin.
Qed.

(** On a built index [find_relevant_documents] does not raise; every
    pair it returns carries a score of at least [min_score] and a document
    of the store as it is now, and for [top_k >= 0] there are at most
    [top_k] pairs. *)
Theorem resolved_pairs_bounded db question (top_k : Z) min_score self :
  built self ->
  exists pairs,
    find_relevant_documents db question top_k min_score self
      = (self, Ok pairs) /\
    Forall (fun p => (min_score <= snd p)%Q /\ fst p ∈ db) pairs /\
    ((0 <= top_k)%Z -> (Z.of_nat (length pairs) <= top_k)%Z).
Proof.
  intros Hb. unfold find_relevant_documents.
  rewrite find_relevant_built by done.
  set (results := select self (similarities_of self question) top_k min_score).
  exists (resolve db results). split; [done|].
  destruct (resolve_spec db results) as [Hk Hin].
  assert (map snd (resolve db results) =
          map score (List.filter (resolvable db) results)) as Hscores.
  { apply (f_equal (map snd)) in Hk. rewrite !map_map in Hk. exact Hk. }
  split.
  - apply List.Forall_forall. intros p Hp. split.
    + assert (In (snd p) (map snd (resolve db results))) as Hs
        by (by apply in_map).
      rewrite Hscores in Hs. apply in_map_iff in Hs as (r & <- & Hr).
      apply filter_In in Hr as [Hr _]. unfold results, select in Hr.
      apply in_map_iff in Hr as (i & <- & Hi).
      apply filter_In in Hi as [_ Hi]. simpl. by apply Qle_bool_iff.
    + rewrite List.Forall_forall in Hin. by apply Hin.
  - intros Hk0.
    assert (length (resolve db results) =
            length (List.filter (resolvable db) results)) as ->.
    { by rewrite <- (length_map snd), Hscores, length_map. }
    pose proof (length_filter_le (resolvable db) results) as H1.
    unfold results, select in H1 |- *.
    rewrite length_map, slice_to_nonneg in H1 by done.
    pose proof (length_filter_le
                  (passes (similarities_of self question) min_score)
                  (take (Z.to_nat top_k)
                     (ranking (similarities_of self question)))) as H2.
    rewrite length_take in H2. fold results. 
    unfold results, select. rewrite slice_to_nonneg by done. lia.
Qed.
End MoreResolution.

(** X11 on a store of three documents. *)
Lemma unchanged_store_resolves_every_result_witness :
  let db := [Demo.doc_cloud; Demo.doc_data; Demo.doc_cloud2] in
  db <> [] /\
  exists results pairs,
    find_relevant db "cloud" 3 (1#2) (Demo.built_on db)
      = (Demo.built_on db, Ok results) /\
    find_relevant_documents db "cloud" 3 (1#2) (Demo.built_on db)
      = (Demo.built_on db, Ok pairs) /\
    map pair_key pairs = map result_key results /\
    Forall (fun p => fst p ∈ db) pairs.
Proof.
  intros db. split; [done|].
  apply (unchanged_store_resolves_every_result (SK := Demo.one_term_sklearn) db
           "cloud" 3 (1#2) new_retriever (Demo.built_on db) 3%nat);
    [reflexivity | done].
Defined.

(** The same on an index of three documents, one of which has left the
    store. *)
Lemma resolved_pairs_bounded_witness :
  let self := Demo.built_on [Demo.doc_cloud; Demo.doc_data; Demo.doc_cloud2] in
  let db := [Demo.doc_cloud; Demo.doc_data] in
  built self /\
  exists pairs,
    find_relevant_documents db "cloud" 3 (1#2) self = (self, Ok pairs) /\
    Forall (fun p => ((1#2) <= snd p)%Q /\ fst p ∈ db) pairs /\
    ((0 <= 3)%Z -> (Z.of_nat (length pairs) <= 3)%Z).
Proof.
  intros self db.
  assert (built self) as Hb.
  { demo_built 3%nat ["cloud"; "data"; "cloud"]. }
  split; [exact Hb|].
  exact (resolved_pairs_bounded (SK := Demo.one_term_sklearn) db "cloud" 3 (1#2)
           self Hb).
Defined.

(** ** Previews and truncation *)

Lemma length_append (a b : string) :
  String.length (a ++ b) = (String.length a + String.length b)%nat.
Proof. induction a as [|c a IH]; simpl; [done | by rewrite IH]. Qed.

Lemma append_empty_r (s : string) : s ++ EmptyString = s.
Proof.
  induction s as [|c s IH]; [done|].
  change (String c (s ++ EmptyString) = String c s). by f_equal.
Qed.

Lemma length_substring_0 (n : nat) (s : string) :
  String.length (substring 0 n s) = Nat.min n (String.length s).
Proof.
  revert n. induction s as [|c s IH]; intros [|n]; simpl; try done.
  by rewrite IH.
Qed.

Lemma substring_0_all (n : nat) (s : string) :
  (String.length s <= n)%nat -> substring 0 n s = s.
Proof.
  revert n. induction s as [|c s IH]; intros [|n]; simpl; intros Hn;
    try done; [lia|].
  f_equal. apply IH. lia.
Qed.

Lemma length_str_slice_to (k : Z) (s : string) :
  String.length (str_slice_to k s) =
    if (k <? 0)%Z then (String.length s - Z.to_nat (- k))%nat
    else Nat.min (Z.to_nat k) (String.length s).
Proof.
  unfold str_slice_to. destruct (k <? 0)%Z; rewrite length_substring_0; lia.
Qed.

(** X12: the preview the index keeps is the content itself up to 200
    characters and has exactly 203 characters beyond: for a content of 201
    or 202 characters the preview is longer than the content. *)
Theorem preview_of_length (content : string) :
  String.length (preview_of content) =
    (if (200 <? String.length content)%nat then 203
     else String.length content)%nat /\
  ((String.length content <= 200)%nat -> preview_of content = content).
Proof.
  unfold preview_of.
  destruct (Nat.ltb_spec 200 (String.length content)) as [Hlong|Hshort].
  - split; [|lia].
    rewrite length_append, length_substring_0, Nat.min_l by lia. reflexivity.
  - by split.
Qed.

(** X13: the preview of the retriever is [Document.content_preview] with
    length 200: the two truncations agree on every document. *)
Theorem retriever_preview_is_model_preview (d : Document) :
  preview_of (doc_content d) = Document_content_preview 200 d.
Proof.
  unfold preview_of, Document_content_preview, str_slice_to. simpl.
  destruct (Nat.ltb_spec 200 (String.length (doc_content d)));
    destruct (Z.leb_spec (Z.of_nat (String.length (doc_content d))) 200);
    try lia; done.
Qed.

Lemma truncated_length (length : Z) (s : string) :
  (0 <= length)%Z ->
  String.length
    (if (Z.of_nat (String.length s) <=? length)%Z then s
     else str_slice_to length s ++ "...") =
  (if (Z.of_nat (String.length s) <=? length)%Z then String.length s
   else Z.to_nat length + 3)%nat.
Proof.
  intros Hl.
  destruct (Z.leb_spec (Z.of_nat (String.length s)) length); [done|].
  rewrite length_append, length_str_slice_to.
  destruct (Z.ltb_spec length 0); [lia|].
  rewrite Nat.min_l by lia. reflexivity.
Qed.

(** X14: for a length [n >= 0], [Document.content_preview(n)] and
    [Question.question_preview(n)] return the text itself when it has at
    most [n] characters, and otherwise its first [n] characters followed by
    three dots, which are exactly [n + 3] characters. *)
Theorem preview_lengths (length : Z) (d : Document) (q : Question) :
  (0 <= length)%Z ->
  String.length (Document_content_preview length d) =
    (if (Z.of_nat (String.length (doc_content d)) <=? length)%Z
     then String.length (doc_content d) else Z.to_nat length + 3)%nat /\
  String.length (Question_question_preview length q) =
    (if (Z.of_nat (String.length (text q)) <=? length)%Z
     then String.length (text q) else Z.to_nat length + 3)%nat /\
  ((Z.of_nat (String.length (doc_content d)) <= length)%Z ->
   Document_content_preview length d = doc_content d) /\
  ((Z.of_nat (String.length (text q)) <= length)%Z ->
   Question_question_preview length q = text q) /\
  ((length < Z.of_nat (String.length (doc_content d)))%Z ->
   Document_content_preview length d =
     substring 0 (Z.to_nat length) (doc_content d) ++ "...") /\
  ((length < Z.of_nat (String.length (text q)))%Z ->
   Question_question_preview length q =
     substring 0 (Z.to_nat length) (text q) ++ "...").
Proof.
  intros Hl. unfold Document_content_preview, Question_question_preview.
  split; [by apply truncated_length|]. split; [by apply truncated_length|].
  unfold str_slice_to. destruct (Z.ltb_spec length 0) as [|_]; [lia|].
  repeat split; intros H.
  - by destruct (Z.leb_spec (Z.of_nat (String.length (doc_content d))) length);
      [|lia].
  - by destruct (Z.leb_spec (Z.of_nat (String.length (text q))) length); [|lia].
  - by destruct (Z.leb_spec (Z.of_nat (String.length (doc_content d))) length);
      [lia|].
  - by destruct (Z.leb_spec (Z.of_nat (String.length (text q))) length); [lia|].
Qed.

(** X15: [Question.__str__] is the text itself up to 50 characters and has
    exactly 53 characters beyond. *)
Theorem question_str_length (q : Question) :
  String.length (Question_str q) =
    (if (50 <? String.length (text q))%nat then 53
     else String.length (text q))%nat /\
  ((String.length (text q) <= 50)%nat -> Question_str q = text q).
Proof.
  unfold Question_str, str_slice_to. simpl.
  destruct (Nat.ltb_spec 50 (String.length (text q))) as [Hlong|Hshort].
  - split; [|lia].
    rewrite length_append, length_substring_0, Nat.min_l by lia. reflexivity.
  - split.
    + rewrite length_append, length_substring_0, Nat.min_r by lia.
      change (String.length EmptyString) with 0%nat. lia.
    + intros _. rewrite substring_0_all by done. apply append_empty_r.
Qed.

(** A negative length cuts from the end and still appends the dots. *)
Example content_preview_negative_length :
  Document_content_preview (-2)
    {| doc_id := 1; doc_title := "t"; doc_content := "abcdef" |} = "abcd...".
Proof. reflexivity. Qed.

(** X14 on the documents of the tests: with length 20 the content is short
    enough and the question is cut. *)
Lemma preview_lengths_witness :
  let d := {| doc_id := 1; doc_title := "Short";
              doc_content := "Short content" |} in
  let q := {| text := "What is machine learning?"; answer := None;
              answered_at := None; related_documents := [] |} in
  (0 <= 20)%Z /\
  String.length (Document_content_preview 20 d) = 13%nat /\
  String.length (Question_question_preview 20 q) = 23%nat /\
  Document_content_preview 20 d = "Short content" /\
  Question_question_preview 20 q = "What is machine lear...".
Proof.
  intros d q. split; [lia|].
  destruct (preview_lengths 20 d q) as (H1 & H2 & H3 & _ & _ & H6); [lia|].
  split; [exact H1|]. split; [exact H2|]. split.
  - apply H3. simpl. lia.
  - rewrite H6; [reflexivity | simpl; lia].
Defined.

(** ** More on the answer chain *)

(** An initialised service is left alone, whatever the settings. *)
Lemma _initialize_fixed settings1 settings2 qa :
  snd (_initialize settings1 qa) = Ok tt ->
  _initialize settings2 (fst (_initialize settings1 qa)) =
    (fst (_initialize settings1 qa), Ok tt).
Proof.
  intros Hinit.
  destruct (_initialize_outcome settings1 qa) as [[_ Hdone] | (e & Hrun & _)].
  - unfold _initialize at 1. by rewrite Hdone.
  - rewrite Hrun in Hinit. discriminate.
Qed.

(** What [generate_answer] leaves of the service. *)
Lemma generate_answer_service settings question documents qa :
  fst (fst (generate_answer settings question documents qa)) =
    fst (_initialize settings qa).
Proof.
  unfold generate_answer.
  destruct (_initialize settings qa) as [qa' [[]|e]]; [|done]. simpl.
  destruct documents as [|d ds]; [done|].
  destruct (_llm qa') as [llm|]; [|done].
  by destruct (llm _) as [[s|c]|e].
Qed.

Lemma generate_answer_raises_iff settings question documents qa e :
  snd (generate_answer settings question documents qa) = Raise e <->
  snd (_initialize settings qa) = Raise e.
Proof.
  split.
  - intros Hgen.
    destruct (_initialize_outcome settings qa) as [[Hok _] | (e' & Hrun & _)].
    + destruct (generate_answer_init_returns settings question documents qa Hok)
        as (prompts & s & Hret).
      rewrite Hret in Hgen. discriminate.
    + rewrite Hrun. simpl.
      rewrite (generate_answer_init_raises settings question documents qa e')
        in Hgen by (by rewrite Hrun).
      simpl in Hgen. by injection Hgen as ->.
  - intros Hinit.
    by rewrite (generate_answer_init_raises _ _ _ _ e Hinit).
Qed.

(** X16: the language model is chosen by the first call of
    [generate_answer] that returns: that call leaves the service
    initialised, every later call leaves the service alone and behaves the
    same whatever the settings have become.  A call that raises leaves the
    service as it was, not initialised, so the next call loads a model
    again. *)
Theorem generate_answer_keeps_first_llm settings1 settings2 question0 documents0
    question documents qa :
  let qa1 := fst (fst (generate_answer settings1 question0 documents0 qa)) in
  (forall a,
     snd (generate_answer settings1 question0 documents0 qa) = Ok a ->
     _initialized qa1 = true /\
     generate_answer settings2 question documents qa1 =
     generate_answer settings1 question documents qa1 /\
     fst (fst (generate_answer settings2 question documents qa1)) = qa1) /\
  (forall e,
     snd (generate_answer settings1 question0 documents0 qa) = Raise e ->
     qa1 = qa /\ _initialized qa = false).
Proof.
  intros qa1. unfold qa1. rewrite generate_answer_service. split.
  - intros a Hret.
    destruct (_initialize_outcome settings1 qa) as [[Hok Hdone] | (e & Hrun & _)].
    + split; [done|].
      assert (forall s, generate_answer s question documents
                          (fst (_initialize settings1 qa)) =
                        generate_answer settings1 question documents
                          (fst (_initialize settings1 qa))) as Hsame.
      { intros s. unfold generate_answer. by rewrite !_initialize_fixed. }
      split; [by rewrite !Hsame|].
      by rewrite generate_answer_service, _initialize_fixed.
    + rewrite (generate_answer_init_raises settings1 question0 documents0 qa e)
        in Hret by (by rewrite Hrun).
      discriminate.
  - intros e Hraise. apply generate_answer_raises_iff in Hraise.
    destruct (_initialize_outcome settings1 qa) as [[Hok _] | (e' & Hrun & Hno)].
    + congruence.
    + by rewrite Hrun.
Qed.

(** X16 on a new service: a first call with a model that loads, then a call
    under other settings; and a first call with a model that does not
    load. *)
Lemma generate_answer_keeps_first_llm_witness :
  let qa1 :=
    fst (fst (generate_answer Demo.failing_settings "cloud" [] new_qa_service)) in
  (_initialized qa1 = true /\
   generate_answer Demo.offline_settings "data" [(Demo.doc_data, 1%Q)] qa1 =
   generate_answer Demo.failing_settings "data" [(Demo.doc_data, 1%Q)] qa1 /\
   fst (fst (generate_answer Demo.offline_settings "data"
               [(Demo.doc_data, 1%Q)] qa1)) = qa1) /\
  fst (fst (generate_answer Demo.offline_settings "cloud" [] new_qa_service))
    = new_qa_service /\
  _initialized new_qa_service = false.
Proof.
  intros qa1. split.
  - destruct (generate_answer_keeps_first_llm Demo.failing_settings
                Demo.offline_settings "cloud" [] "data" [(Demo.doc_data, 1%Q)]
                new_qa_service) as [Hret _].
    apply (Hret "No relevant documents found to answer this question.").
    reflexivity.
  - destruct (generate_answer_keeps_first_llm Demo.offline_settings
                Demo.failing_settings "cloud" [] "data" [(Demo.doc_data, 1%Q)]
                new_qa_service) as [_ Hraise].
    apply (Hraise (OSError "Can't load tokenizer for 'google/flan-t5-base'.")).
    reflexivity.
Defined.

(** X17: [generate_answer] raises exactly when the lazy initialisation
    raises, with its exception, before any prompt is built; whatever the
    model does when it is called, nothing it raises leaves
    [generate_answer].  The model is called at most once, with the prompt
    built from the question and the documents; with no documents it is not
    called. *)
Theorem generate_answer_raises_only_from_initialize settings question
    documents qa :
  (forall e,
     snd (generate_answer settings question documents qa) = Raise e <->
     snd (_initialize settings qa) = Raise e) /\
  (snd (_initialize settings qa) = Ok tt ->
   exists s, snd (generate_answer settings question documents qa) = Ok s) /\
  (forall e,
     snd (_initialize settings qa) = Raise e ->
     generate_answer settings question documents qa = (qa, [], Raise e)) /\
  (snd (fst (generate_answer settings question documents qa)) = [] \/
   snd (fst (generate_answer settings question documents qa)) =
     [_build_prompt question (context_of documents)]) /\
  (documents = [] ->
   snd (fst (generate_answer settings question documents qa)) = []).
Proof.
  split; [intros e; apply generate_answer_raises_iff|].
  split.
  { intros Hok.
    destruct (generate_answer_init_returns settings question documents qa Hok)
      as (prompts & s & ->).
    by eexists. }
  split; [intros e; apply generate_answer_init_raises|].
  unfold generate_answer.
  destruct (_initialize settings qa) as [qa' [[]|e]]; simpl;
    [|by split; [left|]].
  destruct documents as [|d ds]; [by split; [left|]|].
  destruct (_llm qa') as [llm|]; [|by split; [left|]].
  destruct (llm _) as [[s|c]|e]; by split; [right|].
Qed.

Lemma length_join_parts (documents : list (Document * Q)) :
  forall context, context = context_of documents ->
  (String.length context <= 4014)%nat.
Proof.
  intros context ->. unfold context_of.
  match goal with |- context [join ?sep ?parts] => set (ctx := join sep parts) end.
  destruct (Nat.ltb_spec 4000 (String.length ctx)).
  - rewrite length_append, length_substring_0, Nat.min_l by lia.
    change (String.length "...[truncated]") with 14%nat. lia.
  - lia.
Qed.

(** X18: the context given to the model has at most 4014 characters, and
    the prompt has 192 characters besides the question and the context: no
    prompt is longer than the question plus 4206 characters. *)
Theorem prompt_length_bounded (question : string)
    (documents : list (Document * Q)) :
  (String.length (context_of documents) <= 4014)%nat /\
  String.length (_build_prompt question (context_of documents)) =
    (String.length question + String.length (context_of documents) + 192)%nat /\
  (String.length (_build_prompt question (context_of documents))
     <= String.length question + 4206)%nat.
Proof.
  pose proof (length_join_parts documents _ eq_refl) as Hctx.
  assert (String.length (_build_prompt question (context_of documents)) =
          (String.length question + String.length (context_of documents) + 192)%nat)
    as Hlen.
  { unfold _build_prompt. rewrite !length_append.
    change (String.length nl) with 1%nat.
    change (String.length dquote) with 1%nat.
    change (String.length
      "Answer the question based only on the following context.") with 56%nat.
    change (String.length
      "If the answer cannot be found in the context, say ") with 50%nat.
    change (String.length
      "I cannot find the answer in the provided documents.") with 51%nat.
    change (String.length "Context:") with 8%nat.
    change (String.length "Question: ") with 10%nat.
    change (String.length "Answer:") with 7%nat. lia. }
  split; [done|]. split; [done|]. lia.
Qed.

(** ** Answering a question *)

Lemma length_omap_le {A B} (f : A -> option B) (l : list A) :
  (length (omap f l) <= length l)%nat.
Proof.
  induction l as [|x l IH]; [done|]. cbn [omap list_omap].
  destruct (f x); simpl; lia.
Qed.

Lemma length_slice_to_nonneg {A} (k : Z) (l : list A) :
  (0 <= k)%Z -> (length (slice_to k l) <= Z.to_nat k)%nat.
Proof. intros Hk. rewrite slice_to_nonneg, length_take by done. lia. Qed.

Section AnswerQuestionFacts.
Context `{SK : Sklearn} `{NP : Numpy}.
Implicit Types (self : DocumentRetriever) (db : Store).

Lemma collect_length self sims min_score idxs acc results :
  collect self sims min_score idxs acc = Ok results ->
  (length results <= length acc + length idxs)%nat.
Proof.
  revert acc. induction idxs as [|idx rest IH]; intros acc; simpl.
  { intros [= <-]. lia. }
  destruct (sims !! idx) as [sc|]; [|discriminate].
  destruct (Qle_bool min_score sc).
  - destruct (_document_ids self !! idx); [|discriminate].
    destruct (_document_titles self !! idx); [|discriminate].
    destruct (_document_previews self !! idx); [|discriminate].
    intros Hc. apply IH in Hc. rewrite length_app in Hc. simpl in Hc. lia.
  - intros Hc. apply IH in Hc. lia.
Qed.

(** Whatever the state of the object, a query that returns for a
    [top_k >= 0] returns at most [top_k] results. *)
Lemma find_relevant_length db question (top_k : Z) min_score self self' results :
  (0 <= top_k)%Z ->
  find_relevant db question top_k min_score self = (self', Ok results) ->
  (length results <= Z.to_nat top_k)%nat.
Proof.
  intros Hk. unfold find_relevant.
  destruct (if negb (_is_indexed self) || is_None (_vectorizer self)
            then index_documents db self else (self, Ok 0%nat))
    as [self1 [n|e]]; [|discriminate].
  destruct (negb (_is_indexed self1)); [intros [= _ <-]; simpl; lia|].
  destruct (_tfidf_matrix self1) as [X|]; [|intros [= _ <-]; simpl; lia].
  destruct (_vectorizer self1) as [[|v]|]; try discriminate.
  destruct (cosine_similarity (transform v question) X) as [sims|e];
    [|discriminate].
  intros [= _ Hc]. apply collect_length in Hc. simpl in Hc.
  pose proof (length_slice_to_nonneg top_k (ranking sims) Hk). lia.
Qed.

(** The refresh [answer_question] makes before it retrieves changes
    nothing. *)
Lemma answer_question_retrieval settings db now (w : World) :
  answer_question settings db now w =
  match find_relevant_documents db (text (question_row w)) 3 (1#20)
          (retriever w) with
  | (retr, Raise e) =>
      ({| retriever := retr; qa_service := qa_service w;
          question_row := question_row w |}, Raise e)
  | (retr, Ok documents) =>
      match generate_answer settings (text (question_row w)) documents
              (qa_service w) with
      | (qa, _, Raise e) =>
          ({| retriever := retr; qa_service := qa;
              question_row := question_row w |}, Raise e)
      | (qa, _, Ok ans) =>
          ({| retriever := retr; qa_service := qa;
              question_row :=
                {| text := text (question_row w);
                   answer := Some ans;
                   answered_at := Some now;
                   related_documents :=
                     map (fun '(doc, _) => doc_id doc) documents |} |},
           Ok ans)
      end
  end.
Proof.
  unfold answer_question, is_indexed, refresh_index.
  destruct (_is_indexed (retriever w)) eqn:Hidx; simpl; [done|].
  pose proof (find_relevant_after_build db (text (question_row w)) 3 (1#20)
                (retriever w) Hidx) as Hafter.
  destruct (index_documents db (retriever w)) as [retr1 [n|e]] eqn:Hrun;
    simpl in Hafter.
  - unfold find_relevant_documents. by rewrite Hafter.
  - unfold find_relevant_documents, find_relevant. by rewrite Hidx, Hrun.
Qed.

(** X19: when [answer_question] returns, the question keeps its text, has
    the returned string as its answer and the call's time as [answered_at],
    and is related to at most three documents, all of the store. *)
Theorem answer_question_saves_answer settings db now (w : World) (ans : string) :
  snd (answer_question settings db now w) = Ok ans ->
  let q := question_row (fst (answer_question settings db now w)) in
  text q = text (question_row w) /\
  answer q = Some ans /\
  answered_at q = Some now /\
  Question_has_answer q = negb (String.eqb ans EmptyString) /\
  (length (related_documents q) <= 3)%nat /\
  Forall (fun i => i ∈ map doc_id db) (related_documents q).
Proof.
  rewrite answer_question_retrieval. unfold find_relevant_documents.
  destruct (find_relevant db (text (question_row w)) 3 (1#20) (retriever w))
    as [retr [results|e]] eqn:Hfind; [|discriminate].
  destruct (generate_answer settings (text (question_row w))
              (resolve db results) (qa_service w))
    as [[qa prompts] [a|e]]; [|discriminate].
  simpl. intros [= ->]. repeat split.
  - unfold Question_has_answer. simpl. by destruct ans.
  - rewrite length_map.
    apply find_relevant_length in Hfind; [|lia].
    assert (length (resolve db results) <= length results)%nat; [|lia].
    unfold resolve. destruct results; [done|]. apply length_omap_le.
  - destruct (resolve_spec db results) as [_ Hin].
    apply List.Forall_forall. intros i Hi.
    apply in_map_iff in Hi as ([d sc] & <- & Hd).
    rewrite List.Forall_forall in Hin. specialize (Hin _ Hd). simpl in Hin.
    by apply list_elem_of_In, in_map, list_elem_of_In.
Qed.

(** X20: when [answer_question] raises, the exception is the one the
    retrieval raised or, after a retrieval that returned, the one the
    initialisation of the answer service raised; in both cases the question
    and the answer service are as they were before the call: nothing of an
    answer is saved. *)
Theorem answer_question_failure_sources settings db now (w : World) (e : exn) :
  snd (answer_question settings db now w) = Raise e ->
  (snd (find_relevant db (text (question_row w)) 3 (1#20) (retriever w))
     = Raise e \/
   ((exists results,
       snd (find_relevant db (text (question_row w)) 3 (1#20) (retriever w))
         = Ok results) /\
    snd (_initialize settings (qa_service w)) = Raise e)) /\
  question_row (fst (answer_question settings db now w)) = question_row w /\
  qa_service (fst (answer_question settings db now w)) = qa_service w.
Proof.
  rewrite answer_question_retrieval. unfold find_relevant_documents.
  destruct (find_relevant db (text (question_row w)) 3 (1#20) (retriever w))
    as [retr [results|e']] eqn:Hfind.
  - pose proof (generate_answer_raises_iff settings (text (question_row w))
                  (resolve db results) (qa_service w) e) as Hiff.
    pose proof (generate_answer_init_raises settings (text (question_row w))
                  (resolve db results) (qa_service w) e) as Hinit.
    destruct (generate_answer settings (text (question_row w))
                (resolve db results) (qa_service w)) as [[qa prompts] [a|e'']];
      simpl in *; [discriminate|].
    intros [= ->]. destruct Hiff as [Hiff _]. specialize (Hiff eq_refl).
    specialize (Hinit Hiff). injection Hinit as -> _.
    split; [right; split; [by eexists | done] | done].
  - simpl. intros [= ->]. by split; [left|].
Qed.

(** X21: the ask view answers 500 exactly when the retrieval raises or,
    after it, the initialisation of the answer service raises, with the
    message of that exception; otherwise it answers 201 with an answer and
    the time of the call, whatever the language model does when it is
    called. *)
Theorem ask_view_status settings db now (question_text : string) retr qa :
  match snd (find_relevant db question_text 3 (1#20) retr) with
  | Raise e =>
      snd (AskQuestionView_post settings db now question_text retr qa)
        = HTTP_500_INTERNAL_SERVER_ERROR
            ("Failed to generate answer: " ++ str_exn e)
  | Ok _ =>
      match snd (_initialize settings qa) with
      | Raise e =>
          snd (AskQuestionView_post settings db now question_text retr qa)
            = HTTP_500_INTERNAL_SERVER_ERROR
                ("Failed to generate answer: " ++ str_exn e)
      | Ok _ =>
          exists ans related,
            snd (AskQuestionView_post settings db now question_text retr qa)
              = HTTP_201_CREATED question_text (Some ans) related (Some now)
      end
  end.
Proof.
  unfold AskQuestionView_post. rewrite answer_question_retrieval.
  unfold find_relevant_documents. simpl.
  destruct (find_relevant db question_text 3 (1#20) retr)
    as [retr' [results|e]]; simpl; [|done].
  destruct (snd (_initialize settings qa)) as [[]|e] eqn:Hinit.
  - destruct (generate_answer_init_returns settings question_text
                (resolve db results) qa Hinit) as (prompts & s & ->).
    by do 2 eexists.
  - by rewrite (generate_answer_init_raises settings question_text
                  (resolve db results) qa e Hinit).
Qed.

(** On a built index [answer_question] leaves the retriever; it returns
    when the answer service initialises, and raises what the initialisation
    raises. *)
Lemma answer_question_built settings db now retr qa (question : Question) :
  built retr ->
  match snd (_initialize settings qa) with
  | Ok _ =>
      exists ans related,
        answer_question settings db now
          {| retriever := retr; qa_service := qa; question_row := question |} =
        ({| retriever := retr; qa_service := fst (_initialize settings qa);
            question_row := {| text := text question; answer := Some ans;
                               answered_at := Some now;
                               related_documents := related |} |}, Ok ans)
  | Raise e =>
      answer_question settings db now
        {| retriever := retr; qa_service := qa; question_row := question |} =
      ({| retriever := retr; qa_service := qa; question_row := question |},
       Raise e)
  end.
Proof.
  intros Hb. rewrite answer_question_retrieval.
  unfold find_relevant_documents. simpl.
  rewrite find_relevant_built by done.
  destruct (snd (_initialize settings qa)) as [[]|e] eqn:Hinit.
  - destruct (generate_answer_init_returns settings (text question)
                (resolve db (select retr (similarities_of retr (text question))
                               3 (1#20))) qa Hinit) as (prompts & s & ->).
    by do 2 eexists.
  - by rewrite (generate_answer_init_raises settings (text question) _ qa e
                  Hinit).
Qed.

(** X22: with a built index the ask view leaves the retriever as it was; it
    answers 201 when the answer service initialises, also when the language
    model raises on the prompt, and 500 with the message of the exception
    when the initialisation raises. *)
Theorem ask_view_on_built_index settings db now (question_text : string)
    retr qa :
  built retr ->
  match snd (_initialize settings qa) with
  | Ok _ =>
      exists ans related,
        snd (AskQuestionView_post settings db now question_text retr qa)
          = HTTP_201_CREATED question_text (Some ans) related (Some now)
  | Raise e =>
      snd (AskQuestionView_post settings db now question_text retr qa)
        = HTTP_500_INTERNAL_SERVER_ERROR
            ("Failed to generate answer: " ++ str_exn e)
  end /\
  retriever (fst (AskQuestionView_post settings db now question_text retr qa))
    = retr.
Proof.
  intros Hb. unfold AskQuestionView_post.
  pose proof (answer_question_built settings db now retr qa
                {| text := question_text; answer := None; answered_at := None;
                   related_documents := [] |} Hb) as Hrun.
  destruct (snd (_initialize settings qa)) as [[]|e].
  - destruct Hrun as (ans & related & ->). simpl. split; [|done].
    by do 2 eexists.
  - by rewrite Hrun.
Qed.
End AnswerQuestionFacts.

(** X19 with an index of one document and a model that raises. *)
Lemma answer_question_saves_answer_witness :
  let w := {| retriever := Demo.built_on [Demo.doc_cloud];
              qa_service := new_qa_service;
              question_row := {| text := "cloud"; answer := None;
                                 answered_at := None;
                                 related_documents := [7%Z] |} |} in
  let q := question_row
             (fst (answer_question Demo.failing_settings [Demo.doc_cloud] 5 w)) in
  text q = "cloud" /\
  answer q = Some "Error generating answer: boom" /\
  answered_at q = Some 5%Z /\
  Question_has_answer q = true /\
  (length (related_documents q) <= 3)%nat /\
  Forall (fun i => i ∈ map doc_id [Demo.doc_cloud]) (related_documents q).
Proof.
  intros w.
  apply (answer_question_saves_answer (SK := Demo.one_term_sklearn)
           Demo.failing_settings [Demo.doc_cloud] 5 w
           "Error generating answer: boom").
  reflexivity.
Defined.

(** X20 with a store whose only document has no content, where the lazy
    build raises, and on a built index with a model that cannot be
    loaded. *)
Lemma answer_question_failure_sources_witness :
  let question := {| text := "cloud"; answer := None; answered_at := None;
                     related_documents := [7%Z] |} in
  let w1 := {| retriever := new_retriever (SK := Demo.one_term_sklearn);
               qa_service := new_qa_service; question_row := question |} in
  let w2 := {| retriever := Demo.built_on [Demo.doc_cloud];
               qa_service := new_qa_service; question_row := question |} in
  let e1 := ValueError
    "empty vocabulary; perhaps the documents only contain stop words" in
  let e2 := OSError "Can't load tokenizer for 'google/flan-t5-base'." in
  (snd (answer_question Demo.fake_settings [Demo.doc_blank] 5 w1) = Raise e1 /\
   snd (find_relevant [Demo.doc_blank] "cloud" 3 (1#20) (retriever w1))
     = Raise e1 /\
   question_row (fst (answer_question Demo.fake_settings [Demo.doc_blank] 5 w1))
     = question /\
   qa_service (fst (answer_question Demo.fake_settings [Demo.doc_blank] 5 w1))
     = new_qa_service) /\
  (snd (answer_question Demo.offline_settings [Demo.doc_cloud] 5 w2) = Raise e2 /\
   snd (_initialize Demo.offline_settings new_qa_service) = Raise e2 /\
   question_row
     (fst (answer_question Demo.offline_settings [Demo.doc_cloud] 5 w2))
     = question /\
   qa_service
     (fst (answer_question Demo.offline_settings [Demo.doc_cloud] 5 w2))
     = new_qa_service).
Proof.
  intros question w1 w2 e1 e2. split.
  - split; [reflexivity|].
    destruct (answer_question_failure_sources (SK := Demo.one_term_sklearn)
                Demo.fake_settings [Demo.doc_blank] 5 w1 e1 eq_refl)
      as (_ & Hq & Hs).
    split; [reflexivity|]. split; [exact Hq | exact Hs].
  - assert (snd (answer_question Demo.offline_settings [Demo.doc_cloud] 5 w2)
            = Raise e2) as Hraise by reflexivity.
    split; [exact Hraise|].
    destruct (answer_question_failure_sources (SK := Demo.one_term_sklearn)
                Demo.offline_settings [Demo.doc_cloud] 5 w2 e2 Hraise)
      as (_ & Hq & Hs).
    split; [reflexivity|]. split; [exact Hq | exact Hs].
Defined.

(** X22 with a model that raises on every prompt, and with a model that
    cannot be loaded. *)
Lemma ask_view_on_built_index_witness :
  let retr := Demo.built_on [Demo.doc_cloud; Demo.doc_data] in
  built retr /\
  ((exists ans related,
      snd (AskQuestionView_post Demo.failing_settings [] 5 "data" retr
             new_qa_service)
        = HTTP_201_CREATED "data" (Some ans) related (Some 5%Z)) /\
   retriever (fst (AskQuestionView_post Demo.failing_settings [] 5 "data" retr
                     new_qa_service))
     = retr) /\
  (snd (AskQuestionView_post Demo.offline_settings [] 5 "data" retr
          new_qa_service)
     = HTTP_500_INTERNAL_SERVER_ERROR
         "Failed to generate answer: Can't load tokenizer for 'google/flan-t5-base'." /\
   retriever (fst (AskQuestionView_post Demo.offline_settings [] 5 "data" retr
                     new_qa_service))
     = retr).
Proof.
  intros retr.
  assert (built retr) as Hb.
  { demo_built 2%nat ["cloud"; "data"]. }
  split; [exact Hb|]. split.
  - exact (ask_view_on_built_index (SK := Demo.one_term_sklearn)
             Demo.failing_settings [] 5 "data" retr new_qa_service Hb).
  - exact (ask_view_on_built_index (SK := Demo.one_term_sklearn)
             Demo.offline_settings [] 5 "data" retr new_qa_service Hb).
Defined.

(** ** The database storage backend *)

Section Storage.
Implicit Types (table : gmap Z StoredDocument) (r : StoredDocument).

(** X23: content saved for a document that exists is what [get_content]
    returns afterwards, under any reference; the row keeps its title and
    its reference becomes "db". *)
Theorem save_then_get table (document_id : Z) (content reference : string) r :
  table !! document_id = Some r ->
  db_get_content document_id reference
    (fst (db_save_content document_id content table)) = Some content /\
  snd (db_save_content document_id content table) = "db" /\
  fst (db_save_content document_id content table) !! document_id =
    Some {| stored_title := stored_title r; stored_content := content;
            stored_reference := "db" |}.
Proof.
  intros Hr. unfold db_get_content, db_save_content, update_by_id.
  rewrite Hr. simpl. rewrite lookup_alter_eq, Hr. done.
Qed.

(** X24: for a document that does not exist, [save_content] changes
    nothing and still returns the reference "db"; [get_content] returns
    [None] before and after, and [delete_content] returns [False]. *)
Theorem save_missing_document table (document_id : Z)
    (content reference : string) :
  table !! document_id = None ->
  db_save_content document_id content table = (table, "db") /\
  db_get_content document_id reference table = None /\
  db_get_content document_id reference
    (fst (db_save_content document_id content table)) = None /\
  db_delete_content document_id reference table = (table, false).
Proof.
  intros Hr.
  unfold db_get_content, db_save_content, db_delete_content, update_by_id.
  rewrite Hr. simpl. by rewrite Hr.
Qed.

(** X25: [delete_content] on a document that exists returns [True] and
    keeps the row: afterwards [get_content] returns the empty string, not
    [None], and the title and the reference are as before. *)
Theorem delete_keeps_row table (document_id : Z) (reference : string) r :
  table !! document_id = Some r ->
  snd (db_delete_content document_id reference table) = true /\
  db_get_content document_id reference
    (fst (db_delete_content document_id reference table)) = Some EmptyString /\
  fst (db_delete_content document_id reference table) !! document_id =
    Some {| stored_title := stored_title r; stored_content := EmptyString;
            stored_reference := stored_reference r |}.
Proof.
  intros Hr. unfold db_get_content, db_delete_content, update_by_id.
  rewrite Hr. simpl. rewrite lookup_alter_eq, Hr. done.
Qed.

(** X26: the override of [update_content] in the database backend does
    what the default of the base class does with the backend's own
    [delete_content] and [save_content]: the same table and reference. *)
Theorem update_override_is_default table (document_id : Z)
    (reference content : string) :
  db_update_content document_id reference content table =
  default_update_content document_id reference content table.
Proof.
  unfold default_update_content, db_update_content. simpl.
  unfold db_delete_content, db_save_content, update_by_id.
  destruct (table !! document_id) as [r|] eqn:Hr; simpl.
  - rewrite lookup_alter_eq, Hr. simpl. f_equal.
    apply map_eq. intros j.
    destruct (decide (document_id = j)) as [<-|Hne].
    + by rewrite !lookup_alter_eq, Hr.
    + by rewrite !lookup_alter_ne by done.
  - by rewrite Hr.
Qed.

(** X27: saving or deleting the content of one document leaves every other
    row of the table as it was. *)
Theorem storage_touches_one_row table (document_id other : Z)
    (reference content : string) :
  other <> document_id ->
  fst (db_save_content document_id content table) !! other = table !! other /\
  fst (db_delete_content document_id reference table) !! other
    = table !! other.
Proof.
  intros Hne. unfold db_save_content, db_delete_content, update_by_id.
  destruct (table !! document_id); simpl; [|done].
  by rewrite !lookup_alter_ne.
Qed.
End Storage.

(** A table of one document, with id 1. *)
Definition one_row_table : gmap Z StoredDocument :=
  {[ 1%Z := {| stored_title := "Cloud Computing Guide";
               stored_content := "cloud";
               stored_reference := "s3://bucket/1" |} ]}.

(** X23 on the table of one document. *)
Lemma save_then_get_witness :
  db_get_content 1 "s3://bucket/1"
    (fst (db_save_content 1 "new text" one_row_table)) = Some "new text" /\
  snd (db_save_content 1 "new text" one_row_table) = "db" /\
  fst (db_save_content 1 "new text" one_row_table) !! 1%Z =
    Some {| stored_title := "Cloud Computing Guide";
            stored_content := "new text"; stored_reference := "db" |}.
Proof.
  apply (save_then_get one_row_table 1 "new text" "s3://bucket/1"
           {| stored_title := "Cloud Computing Guide";
              stored_content := "cloud";
              stored_reference := "s3://bucket/1" |}).
  reflexivity.
Defined.

(** X24 on the table of one document, for the id 2 it does not hold. *)
Lemma save_missing_document_witness :
  db_save_content 2 "new text" one_row_table = (one_row_table, "db") /\
  db_get_content 2 "db" one_row_table = None /\
  db_get_content 2 "db" (fst (db_save_content 2 "new text" one_row_table))
    = None /\
  db_delete_content 2 "db" one_row_table = (one_row_table, false).
Proof.
  apply (save_missing_document one_row_table 2 "new text" "db").
  reflexivity.
Defined.

(** X25 on the table of one document. *)
Lemma delete_keeps_row_witness :
  snd (db_delete_content 1 "db" one_row_table) = true /\
  db_get_content 1 "db" (fst (db_delete_content 1 "db" one_row_table))
    = Some EmptyString /\
  fst (db_delete_content 1 "db" one_row_table) !! 1%Z =
    Some {| stored_title := "Cloud Computing Guide";
            stored_content := EmptyString;
            stored_reference := "s3://bucket/1" |}.
Proof.
  apply (delete_keeps_row one_row_table 1 "db"
           {| stored_title := "Cloud Computing Guide";
              stored_content := "cloud";
              stored_reference := "s3://bucket/1" |}).
  reflexivity.
Defined.

(** X27 on a table of two documents: an operation on id 2 leaves row 1. *)
Lemma storage_touches_one_row_witness :
  let table :=
    <[ 2%Z := {| stored_title := "Data Science Overview";
                 stored_content := "data"; stored_reference := "db" |} ]>
      one_row_table in
  (1 <> 2)%Z /\
  fst (db_save_content 2 "new text" table) !! 1%Z = table !! 1%Z /\
  fst (db_delete_content 2 "db" table) !! 1%Z = table !! 1%Z.
Proof.
  intros table. split; [lia|].
  apply (storage_touches_one_row table 2 1 "db" "new text"). lia.
Defined.

(** ** The admin actions *)

(** A message of level [ERROR]. *)
Definition is_error (m : message) : bool :=
  match fst m with ERROR => true | _ => false end.

Section AdminFacts.
Context `{SK : Sklearn} `{NP : Numpy}.
Implicit Types (retr : DocumentRetriever) (db : Store) (st : ActionState).

Lemma generate_answers_loop_counts settings db clock n queryset st :
  let st' := generate_answers_loop settings db clock n queryset st in
  (success_count st' + error_count st' =
     success_count st + error_count st + length queryset)%nat /\
  length (act_rows st') = (length (act_rows st) + length queryset)%nat /\
  (length (List.filter is_error (act_messages st')) + error_count st =
     length (List.filter is_error (act_messages st)) + error_count st')%nat.
Proof.
  revert n st. induction queryset as [|question rest IH]; intros n st.
  { simpl. repeat split; lia. }
  cbn [generate_answers_loop].
  destruct (answer_question settings db (clock n) _) as [w [ans|e]].
  - match goal with |- context [generate_answers_loop _ _ _ _ rest ?s] =>
      destruct (IH (S n) s) as (H1 & H2 & H3) end.
    simpl in *. rewrite length_app in H2. simpl in H2.
    repeat split; lia.
  - match goal with |- context [generate_answers_loop _ _ _ _ rest ?s] =>
      destruct (IH (S n) s) as (H1 & H2 & H3) end.
    simpl in *. rewrite length_app in H2. simpl in H2.
    rewrite List.filter_app, length_app in H3. simpl in H3.
    repeat split; lia.
Qed.

(** X28: [generate_answers] counts every question of the queryset once, as
    a success or as an error, goes through all of them also after an
    error, and gives one error message per error. *)
Theorem generate_answers_counts settings db clock queryset retr qa :
  let st := generate_answers settings db clock queryset retr qa in
  (success_count st + error_count st = length queryset)%nat /\
  length (act_rows st) = length queryset /\
  length (List.filter is_error (act_messages st)) = error_count st.
Proof.
  unfold generate_answers.
  match goal with |- context [generate_answers_loop _ _ _ _ _ ?s] =>
    destruct (generate_answers_loop_counts settings db clock 0 queryset s)
      as (H1 & H2 & H3) end.
  simpl in *. split; [lia|]. split; [lia|].
  match goal with |- context [generate_answers_loop _ _ _ _ _ ?s] =>
    set (st := generate_answers_loop settings db clock 0 queryset s) in * end.
  assert (length (List.filter is_error (act_messages st)) = error_count st)
    as Herr by lia.
  destruct (0 <? success_count st)%nat; destruct (0 <? error_count st)%nat;
    rewrite ?List.filter_app, ?length_app; simpl; lia.
Qed.

Lemma generate_answers_loop_built settings db clock n queryset st :
  built (act_retriever st) ->
  snd (_initialize settings (act_qa st)) = Ok tt ->
  let st' := generate_answers_loop settings db clock n queryset st in
  act_retriever st' = act_retriever st /\
  error_count st' = error_count st /\
  success_count st' = (success_count st + length queryset)%nat /\
  act_messages st' = act_messages st /\
  exists rows,
    act_rows st' = (act_rows st ++ rows)%list /\
    Forall2 (fun q q' => text q' = text q /\ exists ans, answer q' = Some ans)
            queryset rows.
Proof.
  revert n st. induction queryset as [|question rest IH]; intros n st Hb Hinit.
  { simpl. repeat split; try lia. exists []. by rewrite app_nil_r. }
  cbn [generate_answers_loop].
  pose proof (answer_question_built settings db (clock n) (act_retriever st)
                (act_qa st) question Hb) as Hrun.
  rewrite Hinit in Hrun. destruct Hrun as (ans & related & ->).
  match goal with |- context [generate_answers_loop _ _ _ _ rest ?s] =>
    destruct (IH (S n) s Hb) as (H1 & H2 & H3 & H4 & rows & H5 & H6) end.
  { simpl. by rewrite _initialize_fixed. }
  simpl in *. repeat split; try done; try lia.
  eexists. rewrite H5, <- app_assoc. split; [done|].
  constructor; [|done]. simpl. eauto.
Qed.

(** X29: on a built index and with an answer service that initialises,
    [generate_answers] counts no error and gives no error or warning
    message, whatever the language model does when it is called: every
    question ends with an answer, and the only message reports success for
    all of them. *)
Theorem generate_answers_on_built_index settings db clock queryset retr qa :
  built retr ->
  snd (_initialize settings qa) = Ok tt ->
  let st := generate_answers settings db clock queryset retr qa in
  error_count st = 0%nat /\
  success_count st = length queryset /\
  act_retriever st = retr /\
  Forall2 (fun q q' => text q' = text q /\ exists ans, answer q' = Some ans)
          queryset (act_rows st) /\
  act_messages st =
    match queryset with
    | [] => []
    | _ :: _ => [(SUCCESS, "Successfully generated answers for " ++
                           pretty (length queryset) ++ " question(s).")]
    end.
Proof.
  intros Hb Hinit. unfold generate_answers.
  match goal with |- context [generate_answers_loop _ _ _ _ _ ?s] =>
    destruct (generate_answers_loop_built settings db clock 0 queryset s Hb
                Hinit)
      as (H1 & H2 & H3 & H4 & rows & H5 & H6);
    set (st := generate_answers_loop settings db clock 0 queryset s) in * end.
  simpl in *. rewrite H2, H3, H4, H5. simpl.
  repeat split; try done.
  destruct queryset as [|q qs]; simpl; done.
Qed.

Lemma find_documents_loop_built db queryset retr rows count :
  built retr ->
  exists rows' n,
    find_documents_loop db queryset retr rows count =
      (retr, (rows ++ rows')%list, Ok (count + n)%nat) /\
    (n <= length queryset)%nat /\
    Forall2 (fun q q' =>
               text q' = text q /\ answer q' = answer q /\
               answered_at q' = answered_at q /\
               (snd (find_relevant_documents db (text q) 3 (1#20) retr) = Ok []
                -> q' = q))
            queryset rows'.
Proof.
  intros Hb. revert rows count.
  induction queryset as [|question rest IH]; intros rows count.
  { exists [], 0%nat. simpl. rewrite app_nil_r, Nat.add_0_r. by repeat split. }
  cbn [find_documents_loop].
  assert (fst (find_relevant_documents db (text question) 3 (1#20) retr) = retr
          /\ exists pairs,
               snd (find_relevant_documents db (text question) 3 (1#20) retr)
               = Ok pairs) as [Hst [pairs Hp]].
  { unfold find_relevant_documents. rewrite find_relevant_built by done.
    split; [done | by eexists]. }
  destruct (find_relevant_documents db (text question) 3 (1#20) retr)
    as [retr' out] eqn:Hrun. simpl in Hst, Hp. subst retr' out.
  destruct pairs as [|p pairs].
  - destruct (IH (rows ++ [question])%list count) as (rows' & n & -> & Hn & HF).
    exists (question :: rows'), n. rewrite <- app_assoc. simpl.
    split; [done|]. split; [lia|]. constructor; [|done]. by repeat split.
  - match goal with |- context [find_documents_loop db rest retr ?r ?c] =>
      destruct (IH r c) as (rows' & n & -> & Hn & HF) end.
    eexists (_ :: rows'), (S n). rewrite <- app_assoc. simpl.
    split; [do 3 f_equal; lia|]. split; [lia|].
    constructor; [|done]. simpl. repeat split; try done.
    rewrite Hrun. discriminate.
Qed.

(** X30: on a built index the action [find_relevant_documents] does not
    raise and leaves the retriever; every question keeps its text, answer
    and [answered_at]; a question for which nothing is retrieved is left
    as it was, with the documents it was related to; and the one message
    reports a count that is at most the number of questions. *)
Theorem admin_find_documents_on_built_index db queryset retr :
  built retr ->
  exists rows n,
    admin_find_relevant_documents db queryset retr =
      (retr, rows,
       Ok [(SUCCESS, "Found relevant documents for " ++ pretty n ++
                     " question(s).")]) /\
    (n <= length queryset)%nat /\
    Forall2 (fun q q' =>
               text q' = text q /\ answer q' = answer q /\
               answered_at q' = answered_at q /\
               (snd (find_relevant_documents db (text q) 3 (1#20) retr) = Ok []
                -> q' = q))
            queryset rows.
Proof.
  intros Hb. unfold admin_find_relevant_documents, is_indexed.
  destruct Hb as [Hidx Hover]. rewrite Hidx. simpl.
  destruct (find_documents_loop_built db queryset retr [] 0 (conj Hidx Hover))
    as (rows & n & -> & Hn & HF).
  exists rows, n. by repeat split.
Qed.
End AdminFacts.

(** Two questions of a queryset. *)
Definition two_questions : list Question :=
  [ {| text := "cloud"; answer := None; answered_at := None;
       related_documents := [] |};
    {| text := "xyz"; answer := None; answered_at := None;
       related_documents := [2%Z] |} ].

(** X29 with a model that raises on every prompt. *)
Lemma generate_answers_on_built_index_witness :
  let retr := Demo.built_on [Demo.doc_cloud; Demo.doc_data] in
  let st := generate_answers Demo.failing_settings [] (fun n => Z.of_nat n)
              two_questions retr new_qa_service in
  built retr /\
  snd (_initialize Demo.failing_settings new_qa_service) = Ok tt /\
  error_count st = 0%nat /\
  success_count st = length two_questions /\
  act_retriever st = retr /\
  Forall2 (fun q q' => text q' = text q /\ exists ans, answer q' = Some ans)
          two_questions (act_rows st) /\
  act_messages st =
    [(SUCCESS, "Successfully generated answers for " ++
               pretty (length two_questions) ++ " question(s).")].
Proof.
  intros retr st.
  assert (built retr) as Hb.
  { demo_built 2%nat ["cloud"; "data"]. }
  split; [exact Hb|]. split; [reflexivity|].
  exact (generate_answers_on_built_index (SK := Demo.one_term_sklearn)
           Demo.failing_settings [] (fun n => Z.of_nat n) two_questions retr
           new_qa_service Hb eq_refl).
Defined.

(** X30 on an index of two documents: the second question retrieves
    nothing. *)
Lemma admin_find_documents_on_built_index_witness :
  let db := [Demo.doc_cloud; Demo.doc_data] in
  let retr := Demo.built_on db in
  built retr /\
  exists rows n,
    admin_find_relevant_documents db two_questions retr =
      (retr, rows,
       Ok [(SUCCESS, "Found relevant documents for " ++ pretty n ++
                     " question(s).")]) /\
    (n <= length two_questions)%nat /\
    Forall2 (fun q q' =>
               text q' = text q /\ answer q' = answer q /\
               answered_at q' = answered_at q /\
               (snd (find_relevant_documents db (text q) 3 (1#20) retr) = Ok []
                -> q' = q))
            two_questions rows.
Proof.
  intros db retr.
  assert (built retr) as Hb.
  { demo_built 2%nat ["cloud"; "data"]. }
  split; [exact Hb|].
  exact (admin_find_documents_on_built_index (SK := Demo.one_term_sklearn) db
           two_questions retr Hb).
Defined.

(** The action on the two questions: the first gets document 1, the second
    keeps document 2, and one question is counted. *)
Example admin_find_documents_run :
  let db := [Demo.doc_cloud; Demo.doc_data] in
  admin_find_relevant_documents db two_questions (Demo.built_on db) =
    (Demo.built_on db,
     [ {| text := "cloud"; answer := None; answered_at := None;
          related_documents := [1%Z] |};
       {| text := "xyz"; answer := None; answered_at := None;
          related_documents := [2%Z] |} ],
     Ok [(SUCCESS, "Found relevant documents for 1 question(s).")]).
Proof. vm_compute. reflexivity. Qed.

(** [generate_answers] on a store that cannot be fitted: each question is
    counted as an error, with its message, and the warning follows. *)
Example generate_answers_errors_run :
  let st := generate_answers Demo.fake_settings [Demo.doc_blank]
              (fun n => Z.of_nat n) two_questions
              (new_retriever (SK := Demo.one_term_sklearn)) new_qa_service in
  success_count st = 0%nat /\ error_count st = 2%nat /\
  act_rows st = two_questions /\
  map fst (act_messages st) = [ERROR; ERROR; WARNING].
Proof. vm_compute. repeat split. Qed.
